(** * Hospital-management backend: billing, stats, login and prescriptions

    A shallow embedding of [src/main.py] and [src/schemas.py].

    - Python [float] is IEEE-754 binary64; it is modelled by Rocq's
      primitive [float], whose operations are the same binary64 operations.
    - A handler is a function of the document store: it takes the store and
      gives back an outcome (a returned value or a raised exception) together
      with the store it leaves behind.
    - The document accessor ([database.py]) is not part of the sources; it is
      modelled from the specification's contract for it. *)

From Stdlib Require Import Bool List String Ascii NArith ZArith Lia.
From Stdlib Require Import Floats.
Import ListNotations.

Local Open Scope string_scope.

(** ** Identifiers

    [bson.ObjectId] is a 12-byte value, written as 24 hexadecimal digits.
    It is modelled as the number those digits denote. *)

Definition oid := N.

Definition hex_value (c : ascii) : option N :=
  let n := N_of_ascii c in
  if ((48 <=? n) && (n <=? 57))%N then Some (n - 48)%N
  else if ((97 <=? n) && (n <=? 102))%N then Some (n - 87)%N
  else if ((65 <=? n) && (n <=? 70))%N then Some (n - 55)%N
  else None.

Fixpoint parse_hex (acc : N) (s : string) : option N :=
  match s with
  | EmptyString => Some acc
  | String c rest =>
      match hex_value c with
      | Some d => parse_hex (16 * acc + d)%N rest
      | None => None
      end
  end.

(** ASCII whitespace, as [bytes.fromhex] skips it: space, tab, line feed,
    vertical tab, form feed, carriage return. *)
Definition is_space (c : ascii) : bool :=
  let n := N_of_ascii c in
  ((n =? 32) || ((9 <=? n) && (n <=? 13)))%N.

(** [bytes.fromhex(s)]: two hexadecimal digits per byte, in either case;
    whitespace is skipped before a byte, not inside one. Anything else is a
    [ValueError] (here: [None]). *)
Fixpoint fromhex (s : string) : option (list N) :=
  match s with
  | EmptyString => Some []
  | String c rest =>
      if is_space c then fromhex rest
      else
        match hex_value c, rest with
        | Some hi, String c' rest' =>
            match hex_value c' with
            | Some lo => option_map (cons (16 * hi + lo)%N) (fromhex rest')
            | None => None
            end
        | _, _ => None
        end
  end.

(** The number a sequence of bytes denotes, most significant byte first. *)
Definition bytes_value (bs : list N) : N :=
  fold_left (fun acc b => (256 * acc + b)%N) bs 0%N.

(** The identifier a byte string stands for. Twelve bytes are an
    identifier proper, a number below 16^24. A shorter byte string (one
    that came from a string with whitespace) is kept apart from every
    identifier proper: it is numbered from 16^24 on, by its length and its
    bytes. *)
Definition oid_of_bytes (bs : list N) : oid :=
  if (List.length bs =? 12)%nat then bytes_value bs
  else (16 ^ 24 * N.of_nat (Datatypes.S (List.length bs)) + bytes_value bs)%N.

(** [ObjectId(id_str)] for a [str] argument, as [bson] validates it: the
    string must have 24 characters and [bytes.fromhex] must accept it;
    otherwise the constructor raises [bson.errors.InvalidId] (here:
    [None]). Twenty-four hexadecimal digits give the identifier they
    denote; a string of 24 characters with whitespace in it is accepted
    too and gives a shorter byte string, which is no stored document's
    identifier as long as those are identifiers proper. *)
Definition ObjectId (id_str : string) : option oid :=
  if (String.length id_str =? 24)%nat
  then option_map oid_of_bytes (fromhex id_str)
  else None.

Definition hex_digit (d : N) : ascii :=
  if (d <? 10)%N then ascii_of_N (48 + d) else ascii_of_N (87 + d).

Fixpoint hex_of (digits : nat) (n : N) : string :=
  match digits with
  | O => EmptyString
  | S k => hex_of k (n / 16)%N ++ String (hex_digit (n mod 16)%N) EmptyString
  end.

(** [str(oid)]: the 24 lower-case hexadecimal digits of the identifier. *)
Definition str_of_oid (o : oid) : string := hex_of 24 o.

(** ** Python values used by the handlers *)

(** Truthiness of an [Optional[str]]: [None] and the empty string are falsy. *)
Definition truthy (o : option string) : option string :=
  match o with
  | Some EmptyString => None
  | Some s => Some s
  | None => None
  end.

(** [max(a, b)] keeps its first argument unless the second compares greater. *)
Definition pymax (a b : float) : float :=
  if (a <? b)%float then b else a.

(** [float(n)] for the length of a list. The conversion goes through the
    63-bit machine integers, which is exact for every list a process can
    hold. *)
Definition float_of_int (n : nat) : float :=
  PrimFloat.of_uint63 (Uint63.of_Z (Z.of_nat n)).

(** [x in xs] on a list of strings. *)
Definition str_in (x : string) (xs : list string) : bool :=
  existsb (String.eqb x) xs.

(** A [dict] with string keys, in insertion order. *)
Definition dict (V : Type) := list (string * V).

(** [d[k] = v]: overwrite the key where it is, or add it at the end. *)
Fixpoint dict_set {V} (k : string) (v : V) (d : dict V) : dict V :=
  match d with
  | [] => [(k, v)]
  | (k', v') :: rest =>
      if String.eqb k k' then (k, v) :: rest else (k', v') :: dict_set k v rest
  end.

Fixpoint dict_get {V} (k : string) (d : dict V) : option V :=
  match d with
  | [] => None
  | (k', v) :: rest => if String.eqb k k' then Some v else dict_get k rest
  end.

(** The values the [details] dictionary of a bill holds: a string (the
    insurance note) or an inner dictionary (a charge: name and price). *)
Inductive pyval : Type :=
| PNone
| PStr (s : string)
| PFloat (f : float).

Inductive detail : Type :=
| DStr (s : string)
| DDict (d : dict pyval).

Definition opt_str (o : option string) : pyval :=
  match o with Some s => PStr s | None => PNone end.

(** ** Documents ([src/schemas.py])

    One record per collection. A field the handlers read with
    [doc.get(key, default)] is optional; a field read with [doc[key]] is
    always there. *)

Module User.
Record t := mk { name : string; email : string; role : string }.
End User.

Module DoctorProfile.
Record t := mk {
  user_id : string;
  specialty : option string;
  rate_per_point : option float }.
End DoctorProfile.

Module PatientProfile.
Record t := mk { user_id : string; insurance_policy_id : option string }.
End PatientProfile.

Module Appointment.
Record t := mk {
  patient_id : string;
  doctor_id : string;
  scheduled_at : string;
  reason : option string;
  status : string;
  payment_method : option string;
  payment_status : string }.
End Appointment.

Module Prescription.
Record t := mk {
  appointment_id : string;
  doctor_id : string;
  patient_id : string;
  notes : option string;
  medications : list string;
  follow_up_date : option string }.
End Prescription.

Module Billing.
Record t := mk {
  appointment_id : string;
  subtotal : float;
  insurance_discount : float;
  total : float;
  details : dict detail }.
End Billing.

Module Operation.
Record t := mk { name : option string; base_price : option float }.
End Operation.

Module Roomtype.
Record t := mk { name : string; price_per_day : option float }.
End Roomtype.

Module Insurancepolicy.
Record t := mk {
  name : string;
  allowed_roomtypes : option (list string);
  coverage_percent : option float }.

(** The bounds the schema declares: [Field(0, ge=0, le=100)]. *)
Definition coverage_in_range (c : float) : bool :=
  ((0 <=? c) && (c <=? 100))%float.

Definition valid (p : t) : bool :=
  match coverage_percent p with
  | Some c => coverage_in_range c
  | None => true
  end.
End Insurancepolicy.

(** A stored document: its [_id] and its fields. *)
Record Doc (A : Type) := mkDoc { _id : oid; fields : A }.
Arguments mkDoc {A} _ _.
Arguments _id {A} _.
Arguments fields {A} _.

(** ** The document store *)

Record Store := mkStore {
  next_oid : oid;
  user : list (Doc User.t);
  doctorprofile : list (Doc DoctorProfile.t);
  patientprofile : list (Doc PatientProfile.t);
  appointment : list (Doc Appointment.t);
  prescription : list (Doc Prescription.t);
  billing : list (Doc Billing.t);
  operation : list (Doc Operation.t);
  roomtype : list (Doc Roomtype.t);
  insurancepolicy : list (Doc Insurancepolicy.t) }.

Definition empty_store : Store :=
  mkStore 0%N [] [] [] [] [] [] [] [] [].

(** A collection of the store: how to read it and how to replace it. *)
Record Collection (A : Type) := mkCollection {
  docs : Store -> list (Doc A);
  with_docs : list (Doc A) -> Store -> Store }.
Arguments mkCollection {A} _ _.
Arguments docs {A} _ _.
Arguments with_docs {A} _ _ _.

Definition with_next_oid (n : oid) (st : Store) : Store :=
  mkStore n (user st) (doctorprofile st) (patientprofile st) (appointment st)
    (prescription st) (billing st) (operation st) (roomtype st)
    (insurancepolicy st).

Definition c_user : Collection User.t :=
  mkCollection user (fun l st =>
    mkStore (next_oid st) l (doctorprofile st) (patientprofile st)
      (appointment st) (prescription st) (billing st) (operation st)
      (roomtype st) (insurancepolicy st)).

Definition c_doctorprofile : Collection DoctorProfile.t :=
  mkCollection doctorprofile (fun l st =>
    mkStore (next_oid st) (user st) l (patientprofile st)
      (appointment st) (prescription st) (billing st) (operation st)
      (roomtype st) (insurancepolicy st)).

Definition c_patientprofile : Collection PatientProfile.t :=
  mkCollection patientprofile (fun l st =>
    mkStore (next_oid st) (user st) (doctorprofile st) l
      (appointment st) (prescription st) (billing st) (operation st)
      (roomtype st) (insurancepolicy st)).

Definition c_appointment : Collection Appointment.t :=
  mkCollection appointment (fun l st =>
    mkStore (next_oid st) (user st) (doctorprofile st) (patientprofile st)
      l (prescription st) (billing st) (operation st)
      (roomtype st) (insurancepolicy st)).

Definition c_prescription : Collection Prescription.t :=
  mkCollection prescription (fun l st =>
    mkStore (next_oid st) (user st) (doctorprofile st) (patientprofile st)
      (appointment st) l (billing st) (operation st)
      (roomtype st) (insurancepolicy st)).

Definition c_billing : Collection Billing.t :=
  mkCollection billing (fun l st =>
    mkStore (next_oid st) (user st) (doctorprofile st) (patientprofile st)
      (appointment st) (prescription st) l (operation st)
      (roomtype st) (insurancepolicy st)).

Definition c_operation : Collection Operation.t :=
  mkCollection operation (fun l st =>
    mkStore (next_oid st) (user st) (doctorprofile st) (patientprofile st)
      (appointment st) (prescription st) (billing st) l
      (roomtype st) (insurancepolicy st)).

Definition c_roomtype : Collection Roomtype.t :=
  mkCollection roomtype (fun l st =>
    mkStore (next_oid st) (user st) (doctorprofile st) (patientprofile st)
      (appointment st) (prescription st) (billing st) (operation st)
      l (insurancepolicy st)).

Definition c_insurancepolicy : Collection Insurancepolicy.t :=
  mkCollection insurancepolicy (fun l st =>
    mkStore (next_oid st) (user st) (doctorprofile st) (patientprofile st)
      (appointment st) (prescription st) (billing st) (operation st)
      (roomtype st) l).

(** ** Outcomes and the handler monad *)

Inductive exn : Type :=
| HTTPException (status_code : Z) (detail : string)
| InvalidId
| TypeError.

Inductive Outcome (A : Type) : Type :=
| Return (a : A)
| Raise (e : exn).
Arguments Return {A} _.
Arguments Raise {A} _.

Definition M (A : Type) : Type := Store -> Outcome A * Store.

Definition ret {A} (a : A) : M A := fun st => (Return a, st).

Definition raise {A} (e : exn) : M A := fun st => (Raise e, st).

Definition bind {A B} (m : M A) (k : A -> M B) : M B :=
  fun st =>
    match m st with
    | (Return a, st') => k a st'
    | (Raise e, st') => (Raise e, st')
    end.

Notation "x <- m ;; k" := (bind m (fun x => k))
  (at level 61, m at next level, right associativity).
Notation "m ;;; k" := (bind m (fun _ => k))
  (at level 61, right associativity).

(** Whether a returned value can be sent as JSON. The framework encodes
    the body with [allow_nan=False], so a float that is NaN or an infinity
    makes the encoding fail; everything else the handlers return encodes. *)
Class Jsonable (A : Type) := json_ok : A -> bool.

#[export] Instance Jsonable_unit : Jsonable unit := fun _ => true.
#[export] Instance Jsonable_string : Jsonable string := fun _ => true.
#[export] Instance Jsonable_oid : Jsonable oid := fun _ => true.
#[export] Instance Jsonable_nat : Jsonable nat := fun _ => true.
#[export] Instance Jsonable_float : Jsonable float := is_finite.

#[export] Instance Jsonable_option {A} `{Jsonable A} : Jsonable (option A) :=
  fun o => match o with Some a => json_ok a | None => true end.

#[export] Instance Jsonable_prod {A B} `{Jsonable A} `{Jsonable B}
  : Jsonable (A * B) :=
  fun p => json_ok (fst p) && json_ok (snd p).

#[export] Instance Jsonable_list {A} `{Jsonable A} : Jsonable (list A) :=
  forallb json_ok.

#[export] Instance Jsonable_pyval : Jsonable pyval :=
  fun v => match v with PFloat f => is_finite f | _ => true end.

#[export] Instance Jsonable_detail : Jsonable detail :=
  fun v => match v with
           | DStr _ => true
           | DDict d => forallb (fun kv => json_ok (snd kv)) d
           end.

#[export] Instance Jsonable_User : Jsonable User.t := fun _ => true.
#[export] Instance Jsonable_Appointment : Jsonable Appointment.t :=
  fun _ => true.
#[export] Instance Jsonable_Prescription : Jsonable Prescription.t :=
  fun _ => true.

#[export] Instance Jsonable_Billing : Jsonable Billing.t :=
  fun b => is_finite (Billing.subtotal b)
           && is_finite (Billing.insurance_discount b)
           && is_finite (Billing.total b)
           && forallb (fun kv => json_ok (snd kv)) (Billing.details b).

(** The status line the framework answers with: 200 for a returned value
    that encodes, 500 for one that does not; the code of an
    [HTTPException]; 500 for any other exception that leaves the handler. *)
Definition status_of {A} `{Jsonable A} (o : Outcome A) : Z :=
  match o with
  | Return a => if json_ok a then 200 else 500
  | Raise (HTTPException c _) => c
  | Raise _ => 500
  end%Z.

(** [ObjectId(s)] inside a handler: the exception is not caught. *)
Definition ObjectId_or_raise (s : string) : M oid :=
  match ObjectId s with
  | Some o => ret o
  | None => raise InvalidId
  end.

(** [to_object_id] (main.py, lines 27-31): the helper that turns a malformed
    identifier into a 400 response. *)
Definition to_object_id (id_str : string) : M oid :=
  match ObjectId id_str with
  | Some o => ret o
  | None => raise (HTTPException 400 "Invalid id")
  end.

(** ** The document accessor *)

(** Modelled from the spec: [create_document] of the missing [database.py],
    by its contract [create(collection, fields) -> id]. The document is added
    at the end of the collection under a fresh identifier, and the
    identifier comes back as a string. *)
Definition create_document {A} (c : Collection A) (data : A) : M string :=
  fun st =>
    let o := next_oid st in
    (Return (str_of_oid o),
     with_next_oid (N.succ o) (with_docs c (docs c st ++ [mkDoc o data]) st)).

(** Modelled from the spec: [get_documents] of the missing [database.py], by
    its contract [find(collection, filter) -> list of documents]. *)
Definition get_documents {A} (c : Collection A) (filter : Doc A -> bool)
  : M (list (Doc A)) :=
  fun st => (Return (List.filter filter (docs c st)), st).

(** Modelled from the spec: the store handle [db] of the missing
    [database.py]; [db[c].find(filter)] gives the matching documents in
    insertion order. *)
Definition find {A} (c : Collection A) (filter : Doc A -> bool)
  : M (list (Doc A)) :=
  fun st => (Return (List.filter filter (docs c st)), st).

(** Modelled from the spec: the store handle [db] of the missing
    [database.py]; [db[c].find_one(filter)] gives the first matching
    document, or [None]. *)
Definition find_one {A} (c : Collection A) (filter : Doc A -> bool)
  : M (option (Doc A)) :=
  fun st => (Return (List.find filter (docs c st)), st).

Fixpoint update_first {A} (filter : A -> bool) (f : A -> A) (l : list A)
  : list A :=
  match l with
  | [] => []
  | x :: rest => if filter x then f x :: rest else x :: update_first filter f rest
  end.

(** Modelled from the spec: the store handle [db] of the missing
    [database.py]; [db[c].update_one(filter, {"$set": ...})] rewrites the
    first matching document in place. *)
Definition update_one {A} (c : Collection A) (filter : Doc A -> bool)
  (set : A -> A) : M unit :=
  fun st =>
    (Return tt,
     with_docs c
       (update_first filter (fun d => mkDoc (_id d) (set (fields d))) (docs c st))
       st).

(** The filter [{"_id": o}]. *)
Definition by_id {A} (o : oid) (d : Doc A) : bool := N.eqb (_id d) o.

(** ** Request and response bodies ([src/main.py]) *)

Record LoginRequest := mkLoginRequest {
  login_email : string;
  login_role : string }.

Record LoginResponse := mkLoginResponse {
  resp_user_id : string;
  resp_user : User.t }.

Record StatsResponse := mkStatsResponse {
  treated_patients : nat;
  points : nat;
  salary : float }.

Record AppointmentRequest := mkAppointmentRequest {
  areq_doctor_id : string;
  areq_scheduled_at : string;
  areq_reason : option string;
  areq_payment_method : option string }.

Record PrescriptionRequest := mkPrescriptionRequest {
  preq_appointment_id : string;
  preq_notes : option string;
  preq_medications : list string;
  preq_follow_up_date : option string }.

Record BillingRequest := mkBillingRequest {
  operation_id : option string;
  roomtype_name : option string }.

Record BillResponse := mkBillResponse {
  billing_id : string;
  subtotal : float;
  discount : float;
  total : float;
  details : dict detail }.

Record OperationCreate := mkOperationCreate {
  ocr_name : string;
  ocr_base_price : float }.

Record RoomCreate := mkRoomCreate {
  rcr_name : string;
  rcr_price_per_day : float }.

(** [InsuranceCreate] (main.py, lines 294-297): the three fields carry no
    bounds, unlike [schemas.Insurancepolicy]. *)
Record InsuranceCreate := mkInsuranceCreate {
  icr_name : string;
  icr_allowed_roomtypes : list string;
  icr_coverage_percent : float }.

#[export] Instance Jsonable_LoginResponse : Jsonable LoginResponse :=
  fun _ => true.

#[export] Instance Jsonable_StatsResponse : Jsonable StatsResponse :=
  fun r => is_finite (salary r).

#[export] Instance Jsonable_BillResponse : Jsonable BillResponse :=
  fun r => is_finite (subtotal r) && is_finite (discount r)
           && is_finite (total r)
           && forallb (fun kv => json_ok (snd kv)) (details r).

(** ** Handlers *)

(** [s.split("@")[0]]: what comes before the first at-sign. *)
Fixpoint local_part (s : string) : string :=
  match s with
  | EmptyString => EmptyString
  | String c rest =>
      if Ascii.eqb c "@"%char then EmptyString else String c (local_part rest)
  end.

(** [login] (main.py, lines 38-50). *)
Definition login (req : LoginRequest) : M LoginResponse :=
  found <- find_one c_user (fun d =>
             String.eqb (User.email (fields d)) (login_email req)
             && String.eqb (User.role (fields d)) (login_role req)) ;;
  user <- match found with
          | Some u => ret (Some u)
          | None =>
              user_id <- create_document c_user
                (User.mk (local_part (login_email req)) (login_email req)
                   (login_role req)) ;;
              o <- ObjectId_or_raise user_id ;;
              u <- find_one c_user (by_id o) ;;
              (if String.eqb (login_role req) "doctor"
               then create_document c_doctorprofile
                      (DoctorProfile.mk user_id None (Some 100%float)) ;;; ret tt
               else ret tt) ;;;
              (if String.eqb (login_role req) "patient"
               then create_document c_patientprofile
                      (PatientProfile.mk user_id None) ;;; ret tt
               else ret tt) ;;;
              ret u
          end ;;
  match user with
  | Some u => ret (mkLoginResponse (str_of_oid (_id u)) (fields u))
  | None => raise TypeError
  end.

(** [doctor_appointments] (main.py, lines 60-65): the identifier is only a
    filter value. *)
Definition doctor_appointments (doctor_id : string)
  : M (list (string * Appointment.t)) :=
  items <- get_documents c_appointment (fun d =>
             String.eqb (Appointment.doctor_id (fields d)) doctor_id) ;;
  ret (map (fun d => (str_of_oid (_id d), fields d)) items).

(** [doctor_stats] (main.py, lines 67-76). *)
Definition doctor_stats (doctor_id : string) : M StatsResponse :=
  completed <- find c_appointment (fun d =>
                 String.eqb (Appointment.doctor_id (fields d)) doctor_id
                 && String.eqb (Appointment.status (fields d)) "completed") ;;
  let count := List.length completed in
  let points := count in
  profile <- find_one c_doctorprofile (fun d =>
               String.eqb (DoctorProfile.user_id (fields d)) doctor_id) ;;
  let rate :=
    match profile with
    | Some p =>
        match DoctorProfile.rate_per_point (fields p) with
        | Some r => r
        | None => 100%float
        end
    | None => 100%float
    end in
  let salary := (float_of_int points * rate)%float in
  ret (mkStatsResponse count points salary).

(** [create_appointment] (main.py, lines 130-141). *)
Definition create_appointment (patient_id : string) (body : AppointmentRequest)
  : M string :=
  create_document c_appointment
    (Appointment.mk patient_id (areq_doctor_id body) (areq_scheduled_at body)
       (areq_reason body) "scheduled" (areq_payment_method body) "pending").

(** [add_prescription] (main.py, lines 157-170). *)
Definition add_prescription (doctor_id : string) (body : PrescriptionRequest)
  : M string :=
  o <- ObjectId_or_raise (preq_appointment_id body) ;;
  appt <- find_one c_appointment (by_id o) ;;
  match appt with
  | None => raise (HTTPException 404 "Appointment not found")
  | Some appt =>
      create_document c_prescription
        (Prescription.mk (preq_appointment_id body) doctor_id
           (Appointment.patient_id (fields appt)) (preq_notes body)
           (preq_medications body) (preq_follow_up_date body))
  end.

(** [update_payment] (main.py, lines 183-186). *)
Definition update_payment (appointment_id : string) (status : string)
  : M unit :=
  o <- ObjectId_or_raise appointment_id ;;
  update_one c_appointment (by_id o) (fun a =>
    Appointment.mk (Appointment.patient_id a) (Appointment.doctor_id a)
      (Appointment.scheduled_at a) (Appointment.reason a)
      (Appointment.status a) (Appointment.payment_method a) status).

(** [float(doc.get(key, 0))]. *)
Definition float_get (field : option float) : float :=
  match field with
  | Some f => f
  | None => 0%float
  end.

(** The inner dictionary [{"name": ..., "price": ...}] of a charge. *)
Definition charge (name : pyval) (price : float) : detail :=
  DDict [("name", name); ("price", PFloat price)].

Definition insurance_note : detail :=
  DStr "Selected room type not covered by insurance".

(** [generate_bill], the charges (main.py, lines 198-213): the optional
    operation and the optional room, each added to the subtotal and recorded
    in the details. *)
Definition bill_charges (body : BillingRequest) : M (float * dict detail) :=
  let subtotal := 0%float in
  let details := @nil (string * detail) in
  after_op <-
    match truthy (operation_id body) with
    | Some op_id =>
        o <- ObjectId_or_raise op_id ;;
        op <- find_one c_operation (by_id o) ;;
        match op with
        | None => raise (HTTPException 404 "Operation not found")
        | Some op =>
            let price := float_get (Operation.base_price (fields op)) in
            ret ((subtotal + price)%float,
                 dict_set "operation"
                   (charge (opt_str (Operation.name (fields op))) price)
                   details)
        end
    | None => ret (subtotal, details)
    end ;;
  let '(subtotal, details) := after_op in
  match truthy (roomtype_name body) with
  | Some rname =>
      room <- find_one c_roomtype (fun d =>
                String.eqb (Roomtype.name (fields d)) rname) ;;
      match room with
      | None => raise (HTTPException 404 "Room type not found")
      | Some room =>
          let price := float_get (Roomtype.price_per_day (fields room)) in
          ret ((subtotal + price)%float,
               dict_set "room"
                 (charge (PStr (Roomtype.name (fields room))) price)
                 details)
      end
  | None => ret (subtotal, details)
  end.

(** [pol.get("allowed_roomtypes", [])]. *)
Definition allowed_list (pol : Insurancepolicy.t) : list string :=
  match Insurancepolicy.allowed_roomtypes pol with
  | Some l => l
  | None => []
  end.

(** The room-eligibility test of line 222. *)
Definition room_not_covered (body : BillingRequest) (pol : Insurancepolicy.t)
  : bool :=
  match truthy (roomtype_name body) with
  | Some rname => negb (str_in rname (allowed_list pol))
  | None => false
  end.

(** [generate_bill], the insurance check (main.py, lines 216-225): gives the
    discount and the details, with the advisory note when it applies. *)
Definition bill_insurance (appt : Appointment.t) (body : BillingRequest)
  (subtotal : float) (details : dict detail) : M (float * dict detail) :=
  patient <- find_one c_patientprofile (fun d =>
               String.eqb (PatientProfile.user_id (fields d))
                 (Appointment.patient_id appt)) ;;
  let discount := 0%float in
  match patient with
  | Some patient =>
      match truthy (PatientProfile.insurance_policy_id (fields patient)) with
      | Some pid =>
          o <- ObjectId_or_raise pid ;;
          pol <- find_one c_insurancepolicy (by_id o) ;;
          match pol with
          | Some pol =>
              let details :=
                if room_not_covered body (fields pol)
                then dict_set "insurance_note" insurance_note details
                else details in
              let coverage :=
                float_get (Insurancepolicy.coverage_percent (fields pol)) in
              ret ((subtotal * (coverage / 100))%float, details)
          | None => ret (discount, details)
          end
      | None => ret (discount, details)
      end
  | None => ret (discount, details)
  end.

(** [generate_bill] (main.py, lines 192-235). *)
Definition generate_bill (appointment_id : string) (body : BillingRequest)
  : M BillResponse :=
  o <- ObjectId_or_raise appointment_id ;;
  appt <- find_one c_appointment (by_id o) ;;
  match appt with
  | None => raise (HTTPException 404 "Appointment not found")
  | Some appt =>
      charges <- bill_charges body ;;
      let '(subtotal, details) := charges in
      insured <- bill_insurance (fields appt) body subtotal details ;;
      let '(discount, details) := insured in
      let total := pymax 0 (subtotal - discount)%float in
      bill_id <- create_document c_billing
                   (Billing.mk appointment_id subtotal discount total details) ;;
      ret (mkBillResponse bill_id subtotal discount total details)
  end.

(** [create_operation] (main.py, lines 280-283). *)
Definition create_operation (body : OperationCreate) : M string :=
  create_document c_operation
    (Operation.mk (Some (ocr_name body)) (Some (ocr_base_price body))).

(** [create_roomtype] (main.py, lines 289-292). *)
Definition create_roomtype (body : RoomCreate) : M string :=
  create_document c_roomtype
    (Roomtype.mk (rcr_name body) (Some (rcr_price_per_day body))).

(** [create_insurance] (main.py, lines 299-302): the body is stored as it
    came, without passing through [schemas.Insurancepolicy]. *)
Definition create_insurance (body : InsuranceCreate) : M string :=
  create_document c_insurancepolicy
    (Insurancepolicy.mk (icr_name body) (Some (icr_allowed_roomtypes body))
       (Some (icr_coverage_percent body))).

(** The store a handler leaves behind, and the outcome it gives. *)
Definition exec {A} (m : M A) (st : Store) : Store := snd (m st).
Definition eval {A} (m : M A) (st : Store) : Outcome A := fst (m st).

(** What the lookups of lines 216-220 come to for an appointment's patient:
    no policy applies (no profile, no reference on the profile, or no
    document under the reference), a policy applies, or the reference is
    not an identifier and [ObjectId] raises. *)
Inductive policy_lookup : Type :=
| NoPolicy
| Policy (pol : Insurancepolicy.t)
| BadReference.

Definition lookup_policy (st : Store) (appt : Appointment.t) : policy_lookup :=
  match List.find (fun d =>
          String.eqb (PatientProfile.user_id (fields d))
            (Appointment.patient_id appt)) (patientprofile st) with
  | Some patient =>
      match truthy (PatientProfile.insurance_policy_id (fields patient)) with
      | Some pid =>
          match ObjectId pid with
          | Some o =>
              match List.find (by_id o) (insurancepolicy st) with
              | Some pol => Policy (fields pol)
              | None => NoPolicy
              end
          | None => BadReference
          end
      | None => NoPolicy
      end
  | None => NoPolicy
  end.

(** The details after the insurance check under a policy. *)
Definition noted (body : BillingRequest) (pol : Insurancepolicy.t)
  (details : dict detail) : dict detail :=
  if room_not_covered body pol
  then dict_set "insurance_note" insurance_note details
  else details.

(** The store after a bill was persisted. *)
Definition with_bill (st : Store) (b : Billing.t) : Store :=
  with_next_oid (N.succ (next_oid st))
    (with_docs c_billing (billing st ++ [mkDoc (next_oid st) b])%list st).

(** ** Notions the properties are stated with *)

(** Counting the doctor's appointments whose status is "completed", one
    document at a time. *)
Definition is_completed_for (doctor_id : string) (a : Appointment.t) : bool :=
  String.eqb (Appointment.doctor_id a) doctor_id
  && String.eqb (Appointment.status a) "completed".

Fixpoint count_completed (doctor_id : string) (l : list (Doc Appointment.t))
  : nat :=
  match l with
  | [] => 0
  | d :: rest =>
      if is_completed_for doctor_id (fields d)
      then Datatypes.S (count_completed doctor_id rest)
      else count_completed doctor_id rest
  end.

Definition completed_count (st : Store) (doctor_id : string) : nat :=
  count_completed doctor_id (appointment st).

(** The doctor's profile, as [doctor_stats] looks it up. *)
Definition profile_of (st : Store) (doctor_id : string)
  : option (Doc DoctorProfile.t) :=
  List.find (fun d => String.eqb (DoctorProfile.user_id (fields d)) doctor_id)
    (doctorprofile st).

(** What [find_one] answers, in words: the first document of the
    collection, in insertion order, that satisfies the condition. *)
Definition first_such {A} (P : A -> Prop) (l : list A) (d : A) : Prop :=
  exists before after,
    l = (before ++ d :: after)%list
    /\ P d
    /\ Forall (fun x => ~ P x) before.

(** An optional string field of a request or document that holds a
    non-empty string, and one that holds none ([None] or the empty string:
    both are falsy). *)
Definition given (field : option string) (s : string) : Prop :=
  field = Some s /\ s <> EmptyString.

Definition not_given (field : option string) : Prop :=
  field = None \/ field = Some EmptyString.

(** The operation part of a bill (main.py, lines 201-206), as a relation
    between the store, the request, and the subtotal and details so far:
    nothing when no operation is asked for; otherwise the first operation
    document under the identifier, charged at its base price (0 when the
    document has none). *)
Inductive operation_charged (st : Store) (body : BillingRequest)
  : float -> dict detail -> Prop :=
| charged_no_operation :
    not_given (operation_id body) ->
    operation_charged st body 0%float []
| charged_operation (op_id : string) (o : oid) (op : Doc Operation.t)
    (price : float) :
    given (operation_id body) op_id ->
    ObjectId op_id = Some o ->
    first_such (fun d => _id d = o) (operation st) op ->
    price = match Operation.base_price (fields op) with
            | Some p => p
            | None => 0%float
            end ->
    operation_charged st body (0 + price)%float
      [("operation",
        DDict [("name", match Operation.name (fields op) with
                        | Some n => PStr n
                        | None => PNone
                        end);
               ("price", PFloat price)])].

(** The room part of a bill (main.py, lines 208-213), continuing from a
    subtotal and details: unchanged when no room type is asked for;
    otherwise the first room type document of that name, charged at its
    price per day and recorded after what is there. *)
Inductive room_charged (st : Store) (body : BillingRequest)
  (S0 : float) (d0 : dict detail) : float -> dict detail -> Prop :=
| charged_no_room :
    not_given (roomtype_name body) ->
    room_charged st body S0 d0 S0 d0
| charged_room (rname : string) (room : Doc Roomtype.t) (price : float) :
    given (roomtype_name body) rname ->
    first_such (fun d => Roomtype.name (fields d) = rname) (roomtype st) room ->
    price = match Roomtype.price_per_day (fields room) with
            | Some p => p
            | None => 0%float
            end ->
    room_charged st body S0 d0 (S0 + price)%float
      (d0 ++ [("room",
               DDict [("name", PStr (Roomtype.name (fields room)));
                      ("price", PFloat price)])])%list.

(** The charges of a request come to the subtotal [S] with the details
    [d]: every document asked for is found. *)
Definition charged (st : Store) (body : BillingRequest) (S : float)
  (d : dict detail) : Prop :=
  exists S0 d0,
    operation_charged st body S0 d0 /\ room_charged st body S0 d0 S d.

(** The policy that applies to an appointment (main.py, lines 216-220):
    the first profile of the appointment's patient carries a non-empty
    policy reference, the reference is an identifier, and the policy is the
    first policy document under it. *)
Definition policy_applies (st : Store) (appt : Appointment.t)
  (pol : Insurancepolicy.t) : Prop :=
  exists profile pid o doc,
    first_such (fun d => PatientProfile.user_id (fields d)
                         = Appointment.patient_id appt)
      (patientprofile st) profile
    /\ given (PatientProfile.insurance_policy_id (fields profile)) pid
    /\ ObjectId pid = Some o
    /\ first_such (fun d => _id d = o) (insurancepolicy st) doc
    /\ fields doc = pol.

(** [T] is max(0, x) in the order of the floats: it is at least 0; it
    equals [x] when [x] is at least 0; it is 0 when [x] is not (negative,
    or NaN). *)
Definition max_zero (x T : float) : Prop :=
  (0 <=? T)%float = true
  /\ ((0 <=? x)%float = true -> (T =? x)%float = true)
  /\ ((0 <=? x)%float = false -> T = 0%float).

(** The advisory note, as the entry it makes in the details. *)
Definition note_entry : string * detail :=
  ("insurance_note", DStr "Selected room type not covered by insurance").

(** The three ways of having no policy on file: no profile for the
    appointment's patient, a profile without a policy reference, or a
    reference under which no policy document is stored. *)
Definition no_policy_on_file (st : Store) (appt : Appointment.t) : Prop :=
  let profile :=
    List.find (fun d =>
      String.eqb (PatientProfile.user_id (fields d))
        (Appointment.patient_id appt)) (patientprofile st) in
  profile = None
  \/ (exists p,
        profile = Some p
        /\ truthy (PatientProfile.insurance_policy_id (fields p)) = None)
  \/ (exists p pid o,
        profile = Some p
        /\ truthy (PatientProfile.insurance_policy_id (fields p)) = Some pid
        /\ ObjectId pid = Some o
        /\ List.find (by_id o) (insurancepolicy st) = None).

(** The filter [{"email": req.email, "role": req.role}]. *)
Definition same_account (req : LoginRequest) (d : Doc User.t) : bool :=
  String.eqb (User.email (fields d)) (login_email req)
  && String.eqb (User.role (fields d)) (login_role req).

(** The user document the first login of an account creates. *)
Definition new_user (req : LoginRequest) : User.t :=
  User.mk (local_part (login_email req)) (login_email req) (login_role req).

(** Identifiers are handed out in increasing order: every stored user has
    an identifier below the next one, which still fits in 12 bytes. *)
Definition ids_fresh (st : Store) : Prop :=
  (next_oid st < 16 ^ 24)%N
  /\ Forall (fun d => (_id d < next_oid st)%N) (user st).

(** ** Sample stores *)

(** A store with an operation (500), a room type (300, "deluxe"), a policy
    covering 20 percent that allows only "normal" rooms, an appointment of
    patient "p1", and the patient's profile pointing at the policy. No
    endpoint sets a profile's policy reference, so the profile is written
    through the accessor. *)
Definition insured_store : Store :=
  exec (create_operation (mkOperationCreate "surgery" 500%float) ;;;
        create_roomtype (mkRoomCreate "deluxe" 300%float) ;;;
        pol_id <- create_insurance
                    (mkInsuranceCreate "basic" ["normal"] 20%float) ;;
        create_appointment "p1"
          (mkAppointmentRequest "d1" "2024-05-01T10:00" None None) ;;;
        create_document c_patientprofile (PatientProfile.mk "p1" (Some pol_id)))
    empty_store.

Definition insured_appointment : Doc Appointment.t :=
  mkDoc 3%N
    (Appointment.mk "p1" "d1" "2024-05-01T10:00" None "scheduled" None "pending").

Definition basic_policy : Insurancepolicy.t :=
  Insurancepolicy.mk "basic" (Some ["normal"]) (Some 20%float).

Definition surgery_in_deluxe : BillingRequest :=
  mkBillingRequest (Some "000000000000000000000000") (Some "deluxe").

Definition surgery_in_deluxe_details : dict detail :=
  [("operation", charge (PStr "surgery") 500%float);
   ("room", charge (PStr "deluxe") 300%float)].

(** The same hospital without any patient profile. *)
Definition uninsured_store : Store :=
  exec (create_operation (mkOperationCreate "surgery" 500%float) ;;;
        create_roomtype (mkRoomCreate "deluxe" 300%float) ;;;
        create_appointment "p1"
          (mkAppointmentRequest "d1" "2024-05-01T10:00" None None))
    empty_store.

(** ** The other handlers of [src/main.py] *)

(** The loop [for d in items: d["_id"] = str(d["_id"])]: each document with
    its identifier as a string. *)
Definition stringified {A} (items : list (Doc A)) : list (string * A) :=
  map (fun d => (str_of_oid (_id d), fields d)) items.

(** [list_doctors] (main.py, lines 53-58). *)
Definition list_doctors : M (list (string * User.t)) :=
  users <- get_documents c_user (fun d =>
             String.eqb (User.role (fields d)) "doctor") ;;
  ret (stringified users).

(** [list_patients] (main.py, lines 123-128). *)
Definition list_patients : M (list (string * User.t)) :=
  users <- get_documents c_user (fun d =>
             String.eqb (User.role (fields d)) "patient") ;;
  ret (stringified users).

(** [doctor_patients] (main.py, lines 96-104). The set of patient ids is
    only used for membership, so a list stands for it; an id that is not an
    ObjectId is skipped ([ObjectId.is_valid]), not raised on. *)
Definition valid_oids (ids : list string) : list oid :=
  flat_map (fun pid => match ObjectId pid with
                       | Some o => [o]
                       | None => []
                       end) ids.

Definition doctor_patients (doctor_id : string) : M (list (string * User.t)) :=
  pats <- find c_appointment (fun d =>
            String.eqb (Appointment.doctor_id (fields d)) doctor_id) ;;
  let patient_ids := map (fun a => Appointment.patient_id (fields a)) pats in
  patients <- find c_user (fun d =>
                existsb (N.eqb (_id d)) (valid_oids patient_ids)) ;;
  ret (stringified patients).

(** [patient_history] (main.py, lines 106-114). *)
Definition patient_history (patient_id : string)
  : M (list (string * Appointment.t) * list (string * Prescription.t)) :=
  appts <- find c_appointment (fun d =>
             String.eqb (Appointment.patient_id (fields d)) patient_id) ;;
  prescriptions <- find c_prescription (fun d =>
                     String.eqb (Prescription.patient_id (fields d)) patient_id) ;;
  ret (stringified appts, stringified prescriptions).

(** [get_patient_appointments] (main.py, lines 143-148). *)
Definition get_patient_appointments (patient_id : string)
  : M (list (string * Appointment.t)) :=
  items <- get_documents c_appointment (fun d =>
             String.eqb (Appointment.patient_id (fields d)) patient_id) ;;
  ret (stringified items).

(** [get_prescription_by_appointment] (main.py, lines 172-177). *)
Definition get_prescription_by_appointment (appointment_id : string)
  : M (list (string * Prescription.t)) :=
  items <- find c_prescription (fun d =>
             String.eqb (Prescription.appointment_id (fields d)) appointment_id) ;;
  ret (stringified items).

Record AdminScheduleRequest := mkAdminScheduleRequest {
  sreq_patient_id : string;
  sreq_doctor_id : string;
  sreq_scheduled_at : string;
  sreq_reason : option string }.

(** [admin_create_appointment] (main.py, lines 244-254): the document has
    no payment method. *)
Definition admin_create_appointment (body : AdminScheduleRequest) : M string :=
  create_document c_appointment
    (Appointment.mk (sreq_patient_id body) (sreq_doctor_id body)
       (sreq_scheduled_at body) (sreq_reason body) "scheduled" None "pending").

(** [admin_get_billing] (main.py, lines 263-268). *)
Definition admin_get_billing (appointment_id : string)
  : M (list (string * Billing.t)) :=
  bills <- find c_billing (fun d =>
             String.eqb (Billing.appointment_id (fields d)) appointment_id) ;;
  ret (stringified bills).

(** [admin_mark_cod_paid] (main.py, lines 270-273). *)
Definition admin_mark_cod_paid (appointment_id : string) : M unit :=
  o <- ObjectId_or_raise appointment_id ;;
  update_one c_appointment (by_id o) (fun a =>
    Appointment.mk (Appointment.patient_id a) (Appointment.doctor_id a)
      (Appointment.scheduled_at a) (Appointment.reason a)
      (Appointment.status a) (Some "cod") "paid").

(** ** The API as a whole

    The endpoints that write to the collections above. (The two
    availability endpoints write to collections of their own, which no
    other handler reads.) *)
Inductive api_call : Type :=
| Login (req : LoginRequest)
| CreateAppointment (patient_id : string) (body : AppointmentRequest)
| AdminCreateAppointment (body : AdminScheduleRequest)
| AddPrescription (doctor_id : string) (body : PrescriptionRequest)
| UpdatePayment (appointment_id : string) (status : string)
| AdminMarkCodPaid (appointment_id : string)
| GenerateBill (appointment_id : string) (body : BillingRequest)
| CreateOperation (body : OperationCreate)
| CreateRoomtype (body : RoomCreate)
| CreateInsurance (body : InsuranceCreate).

(** The store after a call, whether the call returned or raised. *)
Definition call (c : api_call) (st : Store) : Store :=
  match c with
  | Login req => exec (login req) st
  | CreateAppointment patient_id body => exec (create_appointment patient_id body) st
  | AdminCreateAppointment body => exec (admin_create_appointment body) st
  | AddPrescription doctor_id body => exec (add_prescription doctor_id body) st
  | UpdatePayment appointment_id status => exec (update_payment appointment_id status) st
  | AdminMarkCodPaid appointment_id => exec (admin_mark_cod_paid appointment_id) st
  | GenerateBill appointment_id body => exec (generate_bill appointment_id body) st
  | CreateOperation body => exec (create_operation body) st
  | CreateRoomtype body => exec (create_roomtype body) st
  | CreateInsurance body => exec (create_insurance body) st
  end.

(** The stores the API can reach from an empty database. *)
Inductive reachable : Store -> Prop :=
| reachable_empty : reachable empty_store
| reachable_call (c : api_call) (st : Store) :
    reachable st -> reachable (call c st).

(** Every identifier of a collection is below a bound. *)
Definition below {A} (n : oid) (l : list (Doc A)) : Prop :=
  Forall (fun d => (_id d < n)%N) l.

(** Identifiers are pairwise distinct within a collection. *)
Definition distinct_ids {A} (l : list (Doc A)) : Prop :=
  NoDup (map _id l).

(** What the API keeps true of the store: every appointment is
    "scheduled"; every doctor profile has the rate 100.0; no patient profile
    carries a policy reference; no bill has a discount. *)
Record api_invariant (st : Store) : Prop := mk_api_invariant {
  inv_scheduled :
    Forall (fun d => Appointment.status (fields d) = "scheduled")
      (appointment st);
  inv_rate :
    Forall (fun d => DoctorProfile.rate_per_point (fields d) = Some 100%float)
      (doctorprofile st);
  inv_no_policy :
    Forall (fun d => PatientProfile.insurance_policy_id (fields d) = None)
      (patientprofile st);
  inv_no_discount :
    Forall (fun d => Billing.insurance_discount (fields d) = 0%float)
      (billing st) }.

(** Two billing outcomes with the same amounts: the same error, or bills
    that agree on subtotal, discount, total and details (the billing id
    aside). *)
Definition same_amounts (r1 r2 : Outcome BillResponse) : Prop :=
  match r1, r2 with
  | Return x, Return y =>
      subtotal x = subtotal y /\ discount x = discount y
      /\ total x = total y /\ details x = details y
  | Raise e1, Raise e2 => e1 = e2
  | _, _ => False
  end.

(** Two stores in which every lookup a bill makes has the same answer. *)
Definition same_lookups (st1 st2 : Store) : Prop :=
  (forall o, List.find (by_id o) (appointment st1)
             = List.find (by_id o) (appointment st2))
  /\ (forall o, List.find (by_id o) (operation st1)
                = List.find (by_id o) (operation st2))
  /\ (forall n, List.find (fun d => String.eqb (Roomtype.name (fields d)) n)
                  (roomtype st1)
                = List.find (fun d => String.eqb (Roomtype.name (fields d)) n)
                    (roomtype st2))
  /\ (forall p, List.find (fun d =>
                    String.eqb (PatientProfile.user_id (fields d)) p)
                  (patientprofile st1)
                = List.find (fun d =>
                      String.eqb (PatientProfile.user_id (fields d)) p)
                    (patientprofile st2))
  /\ (forall o, List.find (by_id o) (insurancepolicy st1)
                = List.find (by_id o) (insurancepolicy st2)).

(** * Properties *)

(** ** Identifiers and the monad *)

Lemma ObjectId_length (s : string) (o : oid) :
  ObjectId s = Some o -> String.length s = 24%nat.
Proof.
  unfold ObjectId. destruct (Nat.eqb_spec (String.length s) 24); congruence.
Qed.

Lemma ObjectId_truthy (s : string) (o : oid) :
  ObjectId s = Some o -> truthy (Some s) = Some s.
Proof.
  intros H. apply ObjectId_length in H. destruct s; [discriminate | reflexivity].
Qed.

Lemma truthy_some (o : option string) (s : string) :
  truthy o = Some s -> o = Some s /\ s <> EmptyString.
Proof.
  destruct o as [[|c r]|]; simpl; intros H; inversion H; subst.
  split; [reflexivity | discriminate].
Qed.

Lemma hex_value_digit (d : N) : (d < 16)%N -> hex_value (hex_digit d) = Some d.
Proof.
  intros H.
  destruct d as [|p]; [reflexivity|].
  do 4 (destruct p as [p|p|]; try reflexivity; try lia).
Qed.

Lemma parse_hex_app (s1 s2 : string) (acc : N) :
  parse_hex acc (s1 ++ s2)
  = match parse_hex acc s1 with
    | Some a => parse_hex a s2
    | None => None
    end.
Proof.
  revert acc. induction s1 as [|c s1 IH]; intros acc; simpl.
  - reflexivity.
  - destruct (hex_value c); [apply IH | reflexivity].
Qed.

Lemma length_append (s1 s2 : string) :
  String.length (s1 ++ s2) = (String.length s1 + String.length s2)%nat.
Proof. induction s1; simpl; congruence. Qed.

Lemma hex_of_length (k : nat) (n : N) : String.length (hex_of k n) = k.
Proof.
  revert n. induction k as [|k IH]; intros n; simpl.
  - reflexivity.
  - rewrite length_append, IH. simpl. lia.
Qed.

Lemma parse_hex_of (k : nat) (n acc : N) :
  parse_hex acc (hex_of k n)
  = Some (acc * 16 ^ N.of_nat k + n mod 16 ^ N.of_nat k)%N.
Proof.
  revert n acc. induction k as [|k IH]; intros n acc.
  - simpl. rewrite N.mod_1_r. f_equal. lia.
  - cbn [hex_of]. rewrite parse_hex_app, IH. cbn [parse_hex].
    rewrite hex_value_digit by (apply N.mod_lt; lia).
    f_equal. rewrite Nat2N.inj_succ, N.pow_succ_r'.
    rewrite (N.Div0.mod_mul_r n 16 (16 ^ N.of_nat k)). lia.
Qed.

Lemma hex_value_not_space (c : ascii) (d : N) :
  hex_value c = Some d -> is_space c = false.
Proof.
  unfold hex_value, is_space. cbv zeta.
  destruct (48 <=? N_of_ascii c)%N eqn:E1; destruct (N_of_ascii c <=? 57)%N eqn:E2;
    destruct (97 <=? N_of_ascii c)%N eqn:E3;
    destruct (N_of_ascii c <=? 102)%N eqn:E4;
    destruct (65 <=? N_of_ascii c)%N eqn:E5;
    destruct (N_of_ascii c <=? 70)%N eqn:E6; cbn; try discriminate; intros _;
    rewrite ?N.leb_le, ?N.leb_gt in *;
    apply orb_false_iff; split;
    try (apply N.eqb_neq; lia);
    try (apply andb_false_iff;
         destruct (N_of_ascii c <=? 13)%N eqn:E7; [|now right];
         rewrite N.leb_le in E7; lia).
Qed.

(** On hexadecimal digits alone, [fromhex] reads the bytes of the number
    the digits denote. *)
Lemma fromhex_parse_hex (k : nat) (s : string) (acc v : N) :
  String.length s = (2 * k)%nat ->
  parse_hex acc s = Some v ->
  exists bs,
    fromhex s = Some bs /\ List.length bs = k
    /\ fold_left (fun a b => (256 * a + b)%N) bs acc = v.
Proof.
  revert s acc. induction k as [|k IH]; intros s acc Hlen Hparse.
  - destruct s; [|discriminate]. simpl in Hparse. inversion Hparse; subst.
    exists []. repeat split.
  - destruct s as [|c1 s']; [simpl in Hlen; lia|].
    destruct s' as [|c2 rest]; [simpl in Hlen; lia|].
    cbn [parse_hex] in Hparse.
    destruct (hex_value c1) as [hi|] eqn:E1; [|discriminate].
    destruct (hex_value c2) as [lo|] eqn:E2; [|discriminate].
    assert (Hl : String.length rest = (2 * k)%nat) by (simpl in Hlen; lia).
    destruct (IH rest _ Hl Hparse) as [bs [Hf [Hb Hv]]].
    exists ((16 * hi + lo)%N :: bs).
    cbn [fromhex]. rewrite (hex_value_not_space c1 hi E1), E1, E2, Hf.
    repeat split; [simpl; now rewrite Hb|].
    cbn [fold_left]. rewrite <- Hv. f_equal. lia.
Qed.

(** The string of any identifier is accepted, and read as the identifier
    modulo 16^24. *)
Lemma ObjectId_str_of_oid_mod (o : oid) :
  ObjectId (str_of_oid o) = Some (o mod 16 ^ 24)%N.
Proof.
  unfold ObjectId, str_of_oid.
  rewrite hex_of_length. simpl Nat.eqb. cbv iota.
  destruct (fromhex_parse_hex 12 (hex_of 24 o) 0 _ (hex_of_length 24 o)
              (parse_hex_of 24 o 0)) as [bs [Hf [Hb Hv]]].
  rewrite Hf. cbn [option_map]. unfold oid_of_bytes, bytes_value.
  rewrite Hb. cbn [Nat.eqb]. rewrite Hv. f_equal.
Qed.

(** Parsing the string of an identifier gives the identifier back. *)
Lemma ObjectId_str_of_oid (o : oid) :
  (o < 16 ^ 24)%N -> ObjectId (str_of_oid o) = Some o.
Proof.
  intros H. rewrite ObjectId_str_of_oid_mod. f_equal.
  now apply N.mod_small.
Qed.

Lemma bind_return {A B} (m : M A) (k : A -> M B) (st st' : Store) (a : A) :
  m st = (Return a, st') -> bind m k st = k a st'.
Proof. intros H. unfold bind. rewrite H. reflexivity. Qed.

Lemma bind_raise {A B} (m : M A) (k : A -> M B) (st st' : Store) (e : exn) :
  m st = (Raise e, st') -> bind m k st = (Raise e, st').
Proof. intros H. unfold bind. rewrite H. reflexivity. Qed.

Lemma ObjectId_or_raise_some (s : string) (o : oid) (st : Store) :
  ObjectId s = Some o -> ObjectId_or_raise s st = (Return o, st).
Proof. intros H. unfold ObjectId_or_raise. rewrite H. reflexivity. Qed.

Lemma ObjectId_or_raise_none (s : string) (st : Store) :
  ObjectId s = None -> ObjectId_or_raise s st = (Raise InvalidId, st).
Proof. intros H. unfold ObjectId_or_raise. rewrite H. reflexivity. Qed.

(** Reading the store leaves it as it was. *)
Lemma find_one_run {A} (c : Collection A) (f : Doc A -> bool) (st : Store) :
  find_one c f st = (Return (List.find f (docs c st)), st).
Proof. reflexivity. Qed.

Lemma find_run {A} (c : Collection A) (f : Doc A -> bool) (st : Store) :
  find c f st = (Return (List.filter f (docs c st)), st).
Proof. reflexivity. Qed.

(** A computation that only reads is known by its outcome. *)
Lemma run_of_eval {A} (m : M A) (st : Store) (a : A) :
  snd (m st) = st -> eval m st = Return a -> m st = (Return a, st).
Proof.
  unfold eval. destruct (m st) as [r s]. simpl. intros -> ->. reflexivity.
Qed.

(** A malformed identifier leaves [generate_bill] as an uncaught
    [InvalidId], whatever the store and the body. *)
Lemma generate_bill_malformed (st : Store) (s : string) (body : BillingRequest) :
  ObjectId s = None -> generate_bill s body st = (Raise InvalidId, st).
Proof.
  intros H. unfold generate_bill.
  apply bind_raise. now apply ObjectId_or_raise_none.
Qed.

(** The same for [add_prescription] and [update_payment]. *)
Lemma add_prescription_malformed (st : Store) (d : string)
  (body : PrescriptionRequest) :
  ObjectId (preq_appointment_id body) = None ->
  add_prescription d body st = (Raise InvalidId, st).
Proof.
  intros H. unfold add_prescription.
  apply bind_raise. now apply ObjectId_or_raise_none.
Qed.

Lemma update_payment_malformed (st : Store) (s status : string) :
  ObjectId s = None -> update_payment s status st = (Raise InvalidId, st).
Proof.
  intros H. unfold update_payment.
  apply bind_raise. now apply ObjectId_or_raise_none.
Qed.

(** The helper answers 400 on every malformed identifier. *)
Lemma to_object_id_malformed (st : Store) (s : string) :
  ObjectId s = None ->
  status_of (eval (to_object_id s) st) = 400%Z.
Proof. intros H. unfold eval, to_object_id. rewrite H. reflexivity. Qed.

(** A handler that only filters on the identifier answers 200. *)
Lemma doctor_appointments_200 (st : Store) (s : string) :
  status_of (eval (doctor_appointments s) st) = 200%Z.
Proof.
  unfold eval, doctor_appointments, get_documents, bind, ret. cbn [fst].
  unfold status_of.
  replace (json_ok _) with true; [reflexivity|].
  symmetry. apply forallb_forall. intros x _. reflexivity.
Qed.

(** C2: a malformed identifier should give 400 on every id-taking endpoint.
    At the identifier ["not-an-id"] the billing endpoint lets [InvalidId]
    escape (status 500) and the appointment listing answers 200; only the
    helper [to_object_id], which no handler calls, gives 400. *)
Theorem malformed_id_is_not_400 :
  let bad := "not-an-id" in
  ObjectId bad = None
  /\ eval (generate_bill bad (mkBillingRequest None None)) empty_store
     = Raise InvalidId
  /\ status_of (eval (generate_bill bad (mkBillingRequest None None))
                  empty_store) = 500%Z
  /\ status_of (eval (doctor_appointments bad) empty_store) = 200%Z
  /\ status_of (eval (to_object_id bad) empty_store) = 400%Z.
Proof. repeat split. Qed.

(** ** Insurance policies *)

Lemma create_insurance_stores (body : InsuranceCreate) (st : Store) :
  insurancepolicy (exec (create_insurance body) st)
  = (insurancepolicy st
     ++ [mkDoc (next_oid st)
           (Insurancepolicy.mk (icr_name body)
              (Some (icr_allowed_roomtypes body))
              (Some (icr_coverage_percent body)))])%list.
Proof. reflexivity. Qed.

(** C3: every accepted policy should have its coverage percent in [0,100].
    The admin endpoint accepts a body with coverage 150 and stores it
    unchanged, although the schema's bounds reject that value. *)
Theorem create_insurance_stores_out_of_range :
  let body := mkInsuranceCreate "gold" [] 150%float in
  status_of (eval (create_insurance body) empty_store) = 200%Z
  /\ insurancepolicy (exec (create_insurance body) empty_store)
     = [mkDoc 0%N (Insurancepolicy.mk "gold" (Some []) (Some 150%float))]
  /\ Insurancepolicy.coverage_in_range 150%float = false
  /\ forallb (fun d => Insurancepolicy.valid (fields d))
       (insurancepolicy (exec (create_insurance body) empty_store)) = false.
Proof. repeat split. Qed.

(** ** Lookups, in words and in code *)

Lemma find_first_such {A} (P : A -> Prop) (f : A -> bool) (l : list A) (d : A) :
  (forall x, f x = true <-> P x) ->
  first_such P l d -> List.find f l = Some d.
Proof.
  intros Hf (before & after & -> & Hd & Hb).
  induction before as [|x before IH]; simpl.
  - now rewrite (proj2 (Hf d) Hd).
  - inversion Hb as [|? ? Hx Hb']; subst.
    destruct (f x) eqn:E.
    + exfalso. apply Hx. now apply Hf.
    + now apply IH.
Qed.

Lemma first_such_find {A} (P : A -> Prop) (f : A -> bool) (l : list A) (d : A) :
  (forall x, f x = true <-> P x) ->
  List.find f l = Some d -> first_such P l d.
Proof.
  intros Hf. induction l as [|x l IH]; simpl; [discriminate|].
  destruct (f x) eqn:E.
  - intros [= ->]. exists [], l.
    split; [reflexivity|]. split; [now apply Hf | constructor].
  - intros H. destruct (IH H) as (before & after & -> & Hd & Hb).
    exists (x :: before), after.
    split; [reflexivity|]. split; [exact Hd|].
    constructor; [|exact Hb]. intros Hx. apply Hf in Hx. congruence.
Qed.

Lemma find_none_such {A} (P : A -> Prop) (f : A -> bool) (l : list A) :
  (forall x, f x = true <-> P x) ->
  (forall x, In x l -> ~ P x) -> List.find f l = None.
Proof.
  intros Hf Hno. induction l as [|x l IH]; simpl; [reflexivity|].
  destruct (f x) eqn:E.
  - exfalso. apply (Hno x); [now left | now apply Hf].
  - apply IH. intros y Hy. apply Hno. now right.
Qed.

Lemma first_such_in {A} (P : A -> Prop) (l : list A) (d : A) :
  first_such P l d -> In d l /\ P d.
Proof.
  intros (before & after & -> & Hd & _). split; [|exact Hd].
  apply in_or_app. right. now left.
Qed.

Lemma by_id_iff {A} (o : oid) (d : Doc A) : by_id o d = true <-> _id d = o.
Proof. unfold by_id. apply N.eqb_eq. Qed.

Lemma find_by_id_first_such {A} (o : oid) (l : list (Doc A)) (d : Doc A) :
  first_such (fun x => _id x = o) l d -> List.find (by_id o) l = Some d.
Proof. apply find_first_such. intros x. apply by_id_iff. Qed.

Lemma given_truthy (field : option string) (s : string) :
  given field s -> truthy field = Some s.
Proof.
  intros [-> Hs]. destruct s; [now contradiction Hs | reflexivity].
Qed.

Lemma not_given_truthy (field : option string) :
  not_given field -> truthy field = None.
Proof. intros [->| ->]; reflexivity. Qed.

(** Documents with distinct identifiers: one identifier, one document. *)
Lemma distinct_ids_same {A} (l : list (Doc A)) (a b : Doc A) :
  distinct_ids l -> In a l -> In b l -> _id a = _id b -> a = b.
Proof.
  unfold distinct_ids. induction l as [|x l IH]; simpl; [contradiction|].
  intros Hnd Ha Hb E. inversion Hnd as [|? ? Hx Hnd']; subst.
  destruct Ha as [->|Ha], Hb as [->|Hb].
  - reflexivity.
  - exfalso. apply Hx. rewrite E. now apply in_map.
  - exfalso. apply Hx. rewrite <- E. now apply in_map.
  - now apply IH.
Qed.

(** ** Billing: the lookups *)

Lemma bill_charges_store (body : BillingRequest) (st : Store) :
  snd (bill_charges body st) = st.
Proof.
  unfold bill_charges, bind, ObjectId_or_raise, find_one, ret, raise.
  destruct (truthy (operation_id body)) as [op_id|].
  - destruct (ObjectId op_id) as [o|]; [|reflexivity].
    destruct (List.find (by_id o) (docs c_operation st)) as [op|]; [|reflexivity].
    destruct (truthy (roomtype_name body)) as [rname|]; [|reflexivity].
    destruct (List.find _ (docs c_roomtype st)); reflexivity.
  - destruct (truthy (roomtype_name body)) as [rname|]; [|reflexivity].
    destruct (List.find _ (docs c_roomtype st)); reflexivity.
Qed.

Lemma bill_insurance_store (appt : Appointment.t) (body : BillingRequest)
  (subtotal : float) (details : dict detail) (st : Store) :
  snd (bill_insurance appt body subtotal details st) = st.
Proof.
  unfold bill_insurance, bind, ObjectId_or_raise, find_one, ret, raise.
  destruct (List.find _ (docs c_patientprofile st)) as [patient|]; [|reflexivity].
  destruct (truthy _) as [pid|]; [|reflexivity].
  destruct (ObjectId pid) as [o|]; [|reflexivity].
  destruct (List.find (by_id o) (docs c_insurancepolicy st)); reflexivity.
Qed.

(** An operation id that parses but names no document stops the charges
    with a 404. *)
Lemma bill_charges_missing_operation (body : BillingRequest) (st : Store)
  (op_id : string) (o : oid) :
  operation_id body = Some op_id ->
  ObjectId op_id = Some o ->
  List.find (by_id o) (operation st) = None ->
  bill_charges body st = (Raise (HTTPException 404 "Operation not found"), st).
Proof.
  intros Hop Hid Hnone.
  unfold bill_charges, bind, ObjectId_or_raise, find_one, ret, raise.
  rewrite Hop, (ObjectId_truthy _ _ Hid), Hid. simpl. rewrite Hnone.
  reflexivity.
Qed.

(** C4, the counterexample: two requests that supply an operation id under
    which no operation document exists (the store holds no operation at
    all), neither of them answered 404. The empty string counts as no
    operation: the request is billed, answered 200, and a Billing document
    is persisted. The string "abc" is not an identifier: [ObjectId] raises,
    the answer is 500, and nothing is persisted. *)
Lemma bill_operation_without_document_not_404 :
  let st := exec (create_appointment "p1"
                    (mkAppointmentRequest "d1" "2024-05-01T10:00" None None))
              empty_store in
  let empty_id := mkBillingRequest (Some EmptyString) None in
  let not_an_id := mkBillingRequest (Some "abc") None in
  operation st = []
  /\ eval (generate_bill "000000000000000000000000" empty_id) st
     = Return (mkBillResponse "000000000000000000000001" 0 0 0 [])
  /\ status_of (eval (generate_bill "000000000000000000000000" empty_id) st)
     = 200%Z
  /\ billing (exec (generate_bill "000000000000000000000000" empty_id) st)
     = [mkDoc 1%N (Billing.mk "000000000000000000000000" 0 0 0 [])]
  /\ eval (generate_bill "000000000000000000000000" not_an_id) st
     = Raise InvalidId
  /\ status_of (eval (generate_bill "000000000000000000000000" not_an_id) st)
     = 500%Z
  /\ exec (generate_bill "000000000000000000000000" not_an_id) st = st.
Proof. repeat split. Qed.

(** C4, as amended: a billing request that supplies a non-empty operation
    id which is an identifier, with no operation document under that
    identifier, is answered 404 (an [HTTPException] raised by the handler),
    and the store (so the billing collection too) is left as it was. The
    appointment id is an identifier; whether the appointment exists does
    not matter. *)
Theorem bill_missing_operation_404 (st : Store) (appointment_id : string)
  (body : BillingRequest) (aid : oid) (op_id : string) (o : oid) :
  ObjectId appointment_id = Some aid ->
  given (operation_id body) op_id ->
  ObjectId op_id = Some o ->
  (forall op, In op (operation st) -> _id op <> o) ->
  (exists msg,
      eval (generate_bill appointment_id body) st
      = Raise (HTTPException 404 msg))
  /\ status_of (eval (generate_bill appointment_id body) st) = 404%Z
  /\ exec (generate_bill appointment_id body) st = st
  /\ billing (exec (generate_bill appointment_id body) st) = billing st.
Proof.
  intros Haid [Hop _] Hid Hnone.
  assert (Hfind : List.find (by_id o) (operation st) = None).
  { apply (find_none_such (fun d => _id d = o)); [|exact Hnone].
    intros x. apply by_id_iff. }
  assert (E : exists msg,
             generate_bill appointment_id body st
             = (Raise (HTTPException 404 msg), st)).
  { unfold generate_bill.
    rewrite (bind_return _ _ _ _ _ (ObjectId_or_raise_some _ _ st Haid)).
    rewrite (bind_return _ _ _ _ _ (find_one_run c_appointment (by_id aid) st)).
    destruct (List.find (by_id aid) (docs c_appointment st)) as [appt|].
    - eexists. apply bind_raise.
      eapply bill_charges_missing_operation; eassumption.
    - eexists. reflexivity. }
  destruct E as [msg E]. unfold eval, exec. rewrite E. simpl.
  repeat split. now exists msg.
Qed.

Lemma bill_missing_operation_404_witness :
  let st := exec (create_operation (mkOperationCreate "surgery" 500%float) ;;;
                  create_appointment "p1"
                    (mkAppointmentRequest "d1" "2024-05-01T10:00" None None))
              empty_store in
  let body := mkBillingRequest (Some "00000000000000000000beef") None in
  status_of (eval (generate_bill "000000000000000000000001" body) st) = 404%Z
  /\ billing (exec (generate_bill "000000000000000000000001" body) st)
     = billing st.
Proof.
  intros st body.
  assert (Hnone : forall op, In op (operation st) -> _id op <> 48879%N).
  { intros op [<-|[]]. discriminate. }
  assert (Haid : ObjectId "000000000000000000000001" = Some 1%N)
    by reflexivity.
  assert (Hop : given (operation_id body) "00000000000000000000beef")
    by (split; [reflexivity | discriminate]).
  assert (Hid : ObjectId "00000000000000000000beef" = Some 48879%N)
    by reflexivity.
  destruct (bill_missing_operation_404 st "000000000000000000000001" body
              1%N "00000000000000000000beef" 48879%N Haid Hop Hid Hnone)
    as (_ & Hstatus & _ & Hbilling).
  split; assumption.
Defined.

(** ** Doctor statistics *)

Lemma count_completed_filter (doctor_id : string)
  (l : list (Doc Appointment.t)) :
  List.length
    (List.filter (fun d =>
       String.eqb (Appointment.doctor_id (fields d)) doctor_id
       && String.eqb (Appointment.status (fields d)) "completed") l)
  = count_completed doctor_id l.
Proof.
  induction l as [|d rest IH]; simpl; [reflexivity|].
  unfold is_completed_for.
  destruct (String.eqb (Appointment.doctor_id (fields d)) doctor_id
            && String.eqb (Appointment.status (fields d)) "completed");
    simpl; congruence.
Qed.

(** C8: the stats endpoint returns points = N and salary = N * R, where N
    counts the doctor's completed appointments and R is the profile's
    [rate_per_point], and 100.0 when the doctor has no profile. The store
    is only read. *)
Theorem doctor_stats_salary (st : Store) (doctor_id : string) :
  let N := completed_count st doctor_id in
  exec (doctor_stats doctor_id) st = st
  /\ exists R,
       eval (doctor_stats doctor_id) st
       = Return (mkStatsResponse N N (float_of_int N * R)%float)
       /\ (forall p r,
             profile_of st doctor_id = Some p ->
             DoctorProfile.rate_per_point (fields p) = Some r ->
             R = r)
       /\ (profile_of st doctor_id = None -> R = 100%float).
Proof.
  intros N. split; [reflexivity|].
  unfold eval, doctor_stats.
  rewrite (bind_return _ _ _ _ _ (find_run c_appointment _ st)).
  rewrite (bind_return _ _ _ _ _ (find_one_run c_doctorprofile _ st)).
  cbn [docs c_appointment c_doctorprofile].
  rewrite count_completed_filter. fold (completed_count st doctor_id).
  fold (profile_of st doctor_id). fold N.
  destruct (profile_of st doctor_id) as [p|].
  - destruct (DoctorProfile.rate_per_point (fields p)) as [r|] eqn:Er.
    + exists r. split; [reflexivity|]. split.
      * intros p' r' Hp Hr. congruence.
      * discriminate.
    + exists 100%float. split; [reflexivity|]. split.
      * intros p' r' Hp Hr. congruence.
      * reflexivity.
  - exists 100%float. split; [reflexivity|]. split.
    + discriminate.
    + reflexivity.
Qed.

Lemma doctor_stats_salary_witness :
  let st := exec (create_document c_doctorprofile
                    (DoctorProfile.mk "dr-1" None (Some 150%float)) ;;;
                  create_document c_appointment
                    (Appointment.mk "p1" "dr-1" "2024-05-01T10:00" None
                       "completed" None "paid") ;;;
                  create_document c_appointment
                    (Appointment.mk "p2" "dr-1" "2024-05-02T10:00" None
                       "scheduled" None "pending") ;;;
                  create_document c_appointment
                    (Appointment.mk "p3" "dr-1" "2024-05-03T10:00" None
                       "completed" None "pending"))
              empty_store in
  eval (doctor_stats "dr-1") st = Return (mkStatsResponse 2 2 300%float).
Proof.
  intros st.
  destruct (doctor_stats_salary st "dr-1") as [_ [R [E [Hrate _]]]].
  rewrite E.
  rewrite (Hrate (mkDoc 0%N (DoctorProfile.mk "dr-1" None (Some 150%float)))
             150%float eq_refl eq_refl).
  reflexivity.
Defined.

(** ** Prescriptions *)

(** C10: a prescription created by the doctor endpoint carries the patient
    of the appointment it references. When the request's appointment id is
    the identifier of an appointment (the first one under it), the handler
    returns and adds exactly the prescription with that appointment's
    patient. And whatever the request, the prescriptions either stay as they
    were or grow by one prescription [p], for which the store holds an
    appointment whose identifier is the one [p] references and whose
    patient is [p]'s; when the appointments have distinct identifiers,
    every appointment that [p] references has [p]'s patient. *)
Theorem prescription_patient_is_appointment_patient (st : Store)
  (doctor_id : string) (body : PrescriptionRequest) :
  let st' := exec (add_prescription doctor_id body) st in
  (forall o appt,
      ObjectId (preq_appointment_id body) = Some o ->
      first_such (fun a => _id a = o) (appointment st) appt ->
      eval (add_prescription doctor_id body) st
      = Return (str_of_oid (next_oid st))
      /\ prescription st'
         = (prescription st
            ++ [mkDoc (next_oid st)
                  (Prescription.mk (preq_appointment_id body) doctor_id
                     (Appointment.patient_id (fields appt))
                     (preq_notes body) (preq_medications body)
                     (preq_follow_up_date body))])%list)
  /\ (prescription st' = prescription st
      \/ exists appt p,
           prescription st' = (prescription st ++ [p])%list
           /\ Prescription.appointment_id (fields p)
              = preq_appointment_id body
           /\ In appt (appointment st)
           /\ ObjectId (Prescription.appointment_id (fields p))
              = Some (_id appt)
           /\ Prescription.patient_id (fields p)
              = Appointment.patient_id (fields appt)
           /\ (distinct_ids (appointment st) ->
               forall a,
                 In a (appointment st) ->
                 ObjectId (Prescription.appointment_id (fields p))
                 = Some (_id a) ->
                 Prescription.patient_id (fields p)
                 = Appointment.patient_id (fields a))).
Proof.
  intros st'. subst st'. split.
  - intros o appt Hid Hfirst.
    apply find_by_id_first_such in Hfirst.
    unfold eval, exec, add_prescription.
    rewrite (bind_return _ _ _ _ _ (ObjectId_or_raise_some _ _ st Hid)).
    rewrite (bind_return _ _ _ _ _ (find_one_run c_appointment (by_id o) st)).
    cbn [docs c_appointment]. rewrite Hfirst. split; reflexivity.
  - unfold exec, add_prescription.
    destruct (ObjectId (preq_appointment_id body)) as [o|] eqn:Hid.
    + rewrite (bind_return _ _ _ _ _ (ObjectId_or_raise_some _ _ st Hid)).
      rewrite (bind_return _ _ _ _ _ (find_one_run c_appointment (by_id o) st)).
      cbn [docs c_appointment].
      destruct (List.find (by_id o) (appointment st)) as [appt|] eqn:Hfind.
      * right.
        apply (first_such_find (fun a => _id a = o)) in Hfind;
          [|intros x; apply by_id_iff].
        destruct (first_such_in _ _ _ Hfind) as [Hin Ho].
        exists appt.
        exists (mkDoc (next_oid st)
                  (Prescription.mk (preq_appointment_id body) doctor_id
                     (Appointment.patient_id (fields appt))
                     (preq_notes body) (preq_medications body)
                     (preq_follow_up_date body))).
        split; [reflexivity|]. split; [reflexivity|].
        split; [exact Hin|].
        cbn [fields Prescription.appointment_id Prescription.patient_id].
        split; [now rewrite Ho|]. split; [reflexivity|].
        intros Hd a Ha Hida.
        rewrite Hid in Hida. injection Hida as Hida.
        assert (E : a = appt).
        { apply (distinct_ids_same (appointment st)); try assumption.
          congruence. }
        now rewrite E.
      * left. reflexivity.
    + rewrite (bind_raise _ _ _ _ _ (ObjectId_or_raise_none _ st Hid)).
      left. reflexivity.
Qed.

Lemma prescription_patient_is_appointment_patient_witness :
  let st := exec (create_appointment "patient-7"
                    (mkAppointmentRequest "d1" "2024-05-01T10:00" None None))
              empty_store in
  let body := mkPrescriptionRequest "000000000000000000000000"
                (Some "rest") ["aspirin"] None in
  eval (add_prescription "d1" body) st = Return "000000000000000000000001"
  /\ prescription (exec (add_prescription "d1" body) st)
     = [mkDoc 1%N
          (Prescription.mk "000000000000000000000000" "d1" "patient-7"
             (Some "rest") ["aspirin"] None)].
Proof.
  intros st body.
  refine (proj1 (prescription_patient_is_appointment_patient st "d1" body)
            0%N
            (mkDoc 0%N
               (Appointment.mk "patient-7" "d1" "2024-05-01T10:00" None
                  "scheduled" None "pending"))
            eq_refl _).
  exists [], []. repeat split. constructor.
Defined.

(** ** Binary64 rounding: dividing by 100 does not overflow *)

Section Rounding.

Local Open Scope Z_scope.

Lemma digits2_pos_size (p : positive) : digits2_pos p = Pos.size p.
Proof. induction p; simpl; congruence. Qed.

Lemma Zdigits2_le (m k : Z) : 0 <= m -> 0 <= k -> m < 2 ^ k -> Zdigits2 m <= k.
Proof.
  intros Hm Hk Hlt. destruct m as [|p|p]; simpl; [lia| |lia].
  rewrite digits2_pos_size.
  destruct (Z.eq_dec k 0) as [->|Hk0]; [simpl in Hlt; lia|].
  assert (H : Z.log2 (Z.pos p) < k) by (apply Z.log2_lt_pow2; lia).
  assert (E : Z.pos (Pos.size p) = Z.log2 (Z.pos p) + 1).
  { destruct p; simpl; try lia; rewrite ?Pos.add_1_r; lia. }
  lia.
Qed.

Lemma Zdigits2_lt (p : positive) : Z.pos p < 2 ^ Zdigits2 (Z.pos p).
Proof.
  simpl Zdigits2. rewrite digits2_pos_size.
  assert (E : Z.pos (Pos.size p) = Z.log2 (Z.pos p) + 1).
  { destruct p; simpl; try lia; rewrite ?Pos.add_1_r; lia. }
  rewrite E. apply Z.log2_spec. lia.
Qed.

Lemma shr_1_bounds (mrs : shr_record) :
  0 <= shr_m mrs -> 0 <= shr_m (shr_1 mrs) <= shr_m mrs.
Proof.
  destruct mrs as [m r s]. simpl.
  destruct m as [|p|p]; [simpl; lia | | lia].
  intros _. destruct p; simpl; lia.
Qed.

Lemma iter_shr_1_bounds (p : positive) (mrs : shr_record) :
  0 <= shr_m mrs -> 0 <= shr_m (iter_pos shr_1 p mrs) <= shr_m mrs.
Proof.
  revert mrs. induction p as [p IH|p IH|]; intros mrs H; simpl.
  - pose proof (shr_1_bounds mrs H) as H1.
    pose proof (IH _ (proj1 H1)) as H2.
    pose proof (IH _ (proj1 H2)) as H3. lia.
  - pose proof (IH _ H) as H2.
    pose proof (IH _ (proj1 H2)) as H3. lia.
  - now apply shr_1_bounds.
Qed.

Lemma shr_record_of_loc_m (m : Z) (l : location) :
  shr_m (shr_record_of_loc m l) = m.
Proof. destruct l as [|[]]; reflexivity. Qed.

Lemma shr_fexp_bounds (m e : Z) (l : location) :
  0 <= m ->
  0 <= shr_m (fst (shr_fexp prec emax m e l)) <= m
  /\ snd (shr_fexp prec emax m e l)
     <= Z.max e (Z.max (Zdigits2 m + e - 53) (-1074)).
Proof.
  intros Hm. unfold shr_fexp, shr, fexp, SpecFloat.emin, prec, emax.
  destruct (Z.max (Zdigits2 m + e - 53) (3 - 1024 - 53) - e) as [|n|n] eqn:E;
    simpl fst; simpl snd.
  - rewrite shr_record_of_loc_m. lia.
  - pose proof (iter_shr_1_bounds n (shr_record_of_loc m l)) as H.
    rewrite shr_record_of_loc_m in H. split; [now apply H | lia].
  - rewrite shr_record_of_loc_m. lia.
Qed.

Lemma round_nearest_even_bounds (m : Z) (l : location) :
  m <= round_nearest_even m l <= m + 1.
Proof.
  destruct l as [|[]]; simpl; try lia. destruct (Z.even m); lia.
Qed.

(** Rounding a mantissa of at most 54 bits at an exponent of at most 964
    never overflows. *)
Lemma binary_round_aux_finite (s : bool) (m e : Z) (l : location) :
  0 <= m -> m < 2 ^ 54 -> e <= 964 ->
  match binary_round_aux prec emax s m e l with
  | S754_zero _ | S754_finite _ _ _ => True
  | _ => False
  end.
Proof.
  intros Hm Hd He. unfold binary_round_aux.
  pose proof (shr_fexp_bounds m e l Hm) as [H1 H2].
  destruct (shr_fexp prec emax m e l) as [mrs' e'] eqn:E1.
  simpl fst in H1. simpl snd in H2.
  set (m1 := round_nearest_even (shr_m mrs') (loc_of_shr_record mrs')).
  pose proof (round_nearest_even_bounds (shr_m mrs') (loc_of_shr_record mrs'))
    as Hr. fold m1 in Hr.
  assert (Hm1 : 0 <= m1) by lia.
  pose proof (shr_fexp_bounds m1 e' loc_Exact Hm1) as [H3 H4].
  destruct (shr_fexp prec emax m1 e' loc_Exact) as [mrs'' e''] eqn:E2.
  simpl fst in H3. simpl snd in H4.
  assert (Hdm : Zdigits2 m <= 54) by (apply Zdigits2_le; lia).
  assert (Hdm1 : Zdigits2 m1 <= 55).
  { apply Zdigits2_le; lia. }
  destruct (shr_m mrs'') as [|p|p] eqn:E3; [exact I| |lia].
  unfold prec, emax.
  destruct (Z.leb_spec e'' (1024 - 53)); [exact I | lia].
Qed.

Lemma Prim2SF_100 : Prim2SF 100%float = S754_finite false 7036874417766400 (-46).
Proof. reflexivity. Qed.

(** The quotient of a binary64 mantissa by the mantissa of 100, before
    rounding: at most 54 bits, at an exponent of at most 964. *)
Lemma div_core_100 (m1 : positive) (e1 : Z) :
  bounded prec emax m1 e1 = true ->
  let '(q, ez, _) :=
    SFdiv_core_binary prec emax (Z.pos m1) e1 7036874417766400 (-46) in
  0 <= q /\ q < 2 ^ 54 /\ ez <= 964.
Proof.
  unfold bounded, canonical_mantissa, fexp, SpecFloat.emin, prec, emax.
  intros Hb. apply andb_prop in Hb as [Hc He].
  apply Z.eqb_eq in Hc. apply Z.leb_le in He.
  pose proof (Zdigits2_lt m1) as Hlt. simpl Zdigits2 in Hlt.
  unfold SFdiv_core_binary, fexp, SpecFloat.emin.
  simpl Zdigits2.
  set (d1 := Z.pos (digits2_pos m1)) in *.
  assert (Hd1 : 0 < d1) by (unfold d1; lia).
  set (ez := Z.min (Z.max (d1 + e1 - (53 + -46) - 53) (3 - 1024 - 53))
                   (e1 - -46)).
  set (sh := e1 - -46 - ez).
  set (m' := match sh with
             | 0 => Z.pos m1
             | Z.pos _ => Z.shiftl (Z.pos m1) sh
             | Z.neg _ => 0
             end).
  assert (Hsh : 0 <= sh <= 106 - d1) by (unfold sh, ez; lia).
  assert (Hm' : 0 <= m' < 2 ^ 106).
  { assert (Hp : Z.pos m1 * 2 ^ sh < 2 ^ 106).
    { apply Z.lt_le_trans with (2 ^ d1 * 2 ^ sh).
      - apply Z.mul_lt_mono_pos_r; [apply Z.pow_pos_nonneg; lia | exact Hlt].
      - rewrite <- Z.pow_add_r by lia. apply Z.pow_le_mono_r; lia. }
    unfold m'. destruct sh as [|p|p] eqn:Es.
    - rewrite Z.pow_0_r in Hp. lia.
    - rewrite Z.shiftl_mul_pow2 by lia. split; [|exact Hp].
      apply Z.mul_nonneg_nonneg; [lia | apply Z.pow_nonneg; lia].
    - lia. }
  destruct (Z.div_eucl m' 7036874417766400) as [q r] eqn:Ediv.
  assert (Hq : q = m' / 7036874417766400).
  { unfold Z.div. now rewrite Ediv. }
  split; [|split].
  - rewrite Hq. apply Z.div_pos; lia.
  - rewrite Hq. apply Z.div_lt_upper_bound; lia.
  - unfold ez. lia.
Qed.

(** Dividing a number by 100 gives a number: neither NaN nor an infinity. *)
Lemma div_100_finite_cases (x : float) (s : bool) (m : positive) (e : Z) :
  Prim2SF x = S754_finite s m e ->
  match Prim2SF (x / 100)%float with
  | S754_zero _ | S754_finite _ _ _ => True
  | _ => False
  end.
Proof.
  intros E. pose proof (Prim2SF_valid x) as Hv. rewrite E in Hv.
  simpl in Hv.
  rewrite div_spec, E, Prim2SF_100. unfold SF64div, SFdiv.
  pose proof (div_core_100 m e Hv) as H.
  destruct (SFdiv_core_binary prec emax (Z.pos m) e 7036874417766400 (-46))
    as [[q ez] l].
  destruct H as [H1 [H2 H3]].
  now apply binary_round_aux_finite.
Qed.

(** Rounding keeps the sign, and gives no NaN. *)
Lemma binary_round_aux_sign (s : bool) (m e : Z) (l : location) :
  0 <= m ->
  match binary_round_aux prec emax s m e l with
  | S754_zero s' | S754_infinity s' | S754_finite s' _ _ => s' = s
  | S754_nan => False
  end.
Proof.
  intros Hm. unfold binary_round_aux.
  pose proof (shr_fexp_bounds m e l Hm) as [H1 _].
  destruct (shr_fexp prec emax m e l) as [mrs' e'].
  simpl fst in H1.
  set (m1 := round_nearest_even (shr_m mrs') (loc_of_shr_record mrs')).
  pose proof (round_nearest_even_bounds (shr_m mrs') (loc_of_shr_record mrs'))
    as Hr. fold m1 in Hr.
  assert (Hm1 : 0 <= m1) by lia.
  pose proof (shr_fexp_bounds m1 e' loc_Exact Hm1) as [H3 _].
  destruct (shr_fexp prec emax m1 e' loc_Exact) as [mrs'' e''].
  simpl fst in H3.
  destruct (shr_m mrs'') as [|p|p]; [reflexivity| |lia].
  destruct (e'' <=? emax - prec); reflexivity.
Qed.

(** The sign of a quotient by 100 is the sign of the dividend. *)
Lemma div_100_sign (x : float) (s : bool) (m : positive) (e : Z) :
  Prim2SF x = S754_finite s m e ->
  match Prim2SF (x / 100)%float with
  | S754_zero s' | S754_finite s' _ _ => s' = s
  | _ => False
  end.
Proof.
  intros E. pose proof (div_100_finite_cases x s m e E) as Hf.
  pose proof (Prim2SF_valid x) as Hv. rewrite E in Hv. simpl in Hv.
  revert Hf. rewrite div_spec, E, Prim2SF_100. unfold SF64div, SFdiv.
  pose proof (div_core_100 m e Hv) as H.
  destruct (SFdiv_core_binary prec emax (Z.pos m) e 7036874417766400 (-46))
    as [[q ez] l].
  destruct H as [H1 _].
  pose proof (binary_round_aux_sign (xorb s false) q ez l H1) as Hs.
  rewrite xorb_false_r in *.
  destruct (binary_round_aux prec emax s q ez l);
    intros Hf; try contradiction; exact Hs.
Qed.

(** The sign of a product of two numbers, neither of them zero. *)
Lemma mul_finite_sign (x y : float) (sx sy : bool) (mx my : positive)
  (ex ey : Z) :
  Prim2SF x = S754_finite sx mx ex ->
  Prim2SF y = S754_finite sy my ey ->
  match Prim2SF (x * y)%float with
  | S754_zero s' | S754_infinity s' | S754_finite s' _ _ => s' = xorb sx sy
  | S754_nan => False
  end.
Proof.
  intros Ex Ey. rewrite mul_spec, Ex, Ey. unfold SF64mul, SFmul.
  apply binary_round_aux_sign. lia.
Qed.

End Rounding.

(** ** Floating-point facts the billing arithmetic rests on *)

Section FloatFacts.

Local Open Scope float_scope.

Lemma Prim2SF_zero : Prim2SF 0 = S754_zero false.
Proof. reflexivity. Qed.

Lemma SFeqb_finite_refl (s : bool) (m : positive) (e : Z) :
  SFeqb (S754_finite s m e) (S754_finite s m e) = true.
Proof.
  unfold SFeqb, SFcompare.
  destruct s; rewrite Z.compare_refl, Pos.compare_cont_refl; reflexivity.
Qed.

(** A float is a number when it is neither NaN nor an infinity. *)
Lemma is_finite_cases (y : float) :
  is_finite y = true ->
  (exists s, Prim2SF y = S754_zero s)
  \/ (exists s m e, Prim2SF y = S754_finite s m e).
Proof.
  unfold is_finite, is_nan, is_infinity.
  rewrite !FloatAxioms.eqb_spec, abs_spec.
  destruct (Prim2SF y) as [s| s | |s m e] eqn:E.
  - intros _. left. now exists s.
  - simpl. rewrite orb_true_r. discriminate.
  - simpl. discriminate.
  - intros _. right. now exists s, m, e.
Qed.

Lemma is_finite_of_cases (y : float) :
  match Prim2SF y with
  | S754_zero _ | S754_finite _ _ _ => True
  | _ => False
  end ->
  is_finite y = true.
Proof.
  unfold is_finite, is_nan, is_infinity.
  rewrite !FloatAxioms.eqb_spec, abs_spec.
  destruct (Prim2SF y) as [s| s | |s m e]; simpl; try contradiction;
    intros _.
  - reflexivity.
  - rewrite SFeqb_finite_refl.
    change (Prim2SF infinity) with (S754_infinity false). reflexivity.
Qed.

(** A finite coverage percent gives a finite coverage fraction. *)
Lemma div_100_is_finite (c : float) :
  is_finite c = true -> is_finite (c / 100) = true.
Proof.
  intros H. apply is_finite_of_cases.
  destruct (is_finite_cases c H) as [[s E]|[s [m [e E]]]].
  - rewrite div_spec, E, Prim2SF_100. exact I.
  - exact (div_100_finite_cases c s m e E).
Qed.

(** An infinite or NaN coverage percent gives such a fraction. *)
Lemma div_100_not_finite (c : float) :
  is_finite c = false -> is_finite (c / 100) = false.
Proof.
  intros H.
  assert (Hc : match Prim2SF c with
               | S754_infinity _ | S754_nan => True
               | _ => False
               end).
  { destruct (Prim2SF c) eqn:E; try exact I;
      rewrite is_finite_of_cases in H by (rewrite E; exact I); discriminate. }
  destruct (is_finite (c / 100)) eqn:F; [|reflexivity].
  apply is_finite_cases in F. rewrite div_spec, Prim2SF_100 in F.
  destruct (Prim2SF c); try contradiction; simpl in F;
    destruct F as [[? F]|[? [? [? F]]]]; discriminate.
Qed.

(** A coverage percent within the schema's bounds is finite. *)
Lemma coverage_in_range_finite (c : float) :
  Insurancepolicy.coverage_in_range c = true -> is_finite c = true.
Proof.
  unfold Insurancepolicy.coverage_in_range. intros H.
  apply andb_prop in H as [H0 H100]. apply is_finite_of_cases.
  rewrite leb_spec in H0, H100. rewrite Prim2SF_zero in H0.
  rewrite Prim2SF_100 in H100.
  destruct (Prim2SF c) as [s| s | |s m e]; try exact I.
  - destruct s; discriminate.
  - discriminate.
Qed.

(** Zero times anything is a zero or NaN. *)
Lemma mul_zero_l (y : float) :
  (exists s, Prim2SF (0 * y) = S754_zero s) \/ Prim2SF (0 * y) = S754_nan.
Proof.
  rewrite mul_spec, Prim2SF_zero.
  destruct (Prim2SF y) as [s| s | |s m e]; simpl.
  - left. now eexists.
  - now right.
  - now right.
  - left. now eexists.
Qed.

(** Zero times a number is a zero. *)
Lemma mul_zero_l_finite (y : float) :
  is_finite y = true -> (0 * y =? 0) = true.
Proof.
  intros H. rewrite FloatAxioms.eqb_spec, mul_spec, Prim2SF_zero.
  destruct (is_finite_cases y H) as [[s E]|[s [m [e E]]]]; rewrite E;
    reflexivity.
Qed.

(** Zero times an infinity or NaN is NaN. *)
Lemma mul_zero_l_not_finite (y : float) :
  is_finite y = false -> is_nan (0 * y) = true.
Proof.
  unfold is_finite, is_nan, is_infinity.
  rewrite !FloatAxioms.eqb_spec, abs_spec, mul_spec, Prim2SF_zero.
  destruct (Prim2SF y) as [s| s | |s m e]; simpl; try reflexivity.
  - discriminate.
  - rewrite SFeqb_finite_refl.
    change (Prim2SF infinity) with (S754_infinity false). discriminate.
Qed.

(** The clamp of [0 - d] is zero when [d] is a zero or NaN. *)
Lemma pymax_zero_sub (d : float) :
  (exists s, Prim2SF d = S754_zero s) \/ Prim2SF d = S754_nan ->
  pymax 0 (0 - d) = 0.
Proof.
  intros H. unfold pymax. rewrite ltb_spec, sub_spec, Prim2SF_zero.
  destruct H as [[s E]|E]; rewrite E; [destruct s|]; reflexivity.
Qed.

(** The clamp leaves a non-negative subtotal as it is when nothing is
    deducted. *)
Lemma pymax_nonneg (x : float) :
  (0 <=? x) = true -> (pymax 0 (x - 0) =? x) = true.
Proof.
  unfold pymax.
  rewrite leb_spec, ltb_spec, sub_spec, Prim2SF_zero.
  destruct (Prim2SF x) as [s| s | |s m e] eqn:E; simpl.
  - intros _. destruct s; simpl;
      rewrite FloatAxioms.eqb_spec, E; reflexivity.
  - destruct s; [discriminate|]. intros _. simpl.
    rewrite FloatAxioms.eqb_spec, sub_spec, E. reflexivity.
  - discriminate.
  - destruct s; [discriminate|]. intros _. simpl.
    rewrite FloatAxioms.eqb_spec, sub_spec, E, Prim2SF_zero. simpl.
    apply SFeqb_finite_refl.
Qed.

(** The clamp turns a negative subtotal into zero. *)
Lemma pymax_negative (x : float) :
  (x <? 0) = true -> pymax 0 (x - 0) = 0.
Proof.
  unfold pymax.
  rewrite !ltb_spec, sub_spec, Prim2SF_zero.
  destruct (Prim2SF x) as [s| s | |s m e] eqn:E; simpl;
    try discriminate; destruct s; try discriminate; reflexivity.
Qed.

(** At least zero, by cases. *)
Lemma leb_zero_cases (y : float) :
  (0 <=? y) = true <->
  match Prim2SF y with
  | S754_zero _ => True
  | S754_infinity s | S754_finite s _ _ => s = false
  | S754_nan => False
  end.
Proof.
  rewrite leb_spec, Prim2SF_zero.
  destruct (Prim2SF y) as [s|s| |s m e]; simpl.
  - split; [intros _; exact I | reflexivity].
  - destruct s; cbv; split; intros H; try reflexivity; discriminate H.
  - split; [discriminate|contradiction].
  - destruct s; cbv; split; intros H; try reflexivity; discriminate H.
Qed.

Lemma ltb_zero_cases (y : float) :
  (0 <? y) = match Prim2SF y with
             | S754_infinity false | S754_finite false _ _ => true
             | _ => false
             end.
Proof.
  rewrite ltb_spec, Prim2SF_zero.
  destruct (Prim2SF y) as [[]|[]| |[] ? ?]; reflexivity.
Qed.

Lemma eqb_refl_cases (y : float) :
  match Prim2SF y with S754_nan => False | _ => True end ->
  (y =? y) = true.
Proof.
  rewrite FloatAxioms.eqb_spec.
  destruct (Prim2SF y) as [s|s| |s m e]; try contradiction; intros _.
  - reflexivity.
  - destruct s; reflexivity.
  - apply SFeqb_finite_refl.
Qed.

Lemma pymax_max_zero (x : float) : max_zero x (pymax 0 x).
Proof.
  unfold max_zero, pymax. rewrite ltb_zero_cases.
  split; [|split].
  - destruct (Prim2SF x) as [s|[]| |[] m e] eqn:E; try reflexivity;
      apply leb_zero_cases; now rewrite E.
  - intros H. apply leb_zero_cases in H.
    destruct (Prim2SF x) as [s|[]| |[] m e] eqn:E;
      try contradiction; try discriminate.
    + now rewrite FloatAxioms.eqb_spec, E.
    + apply eqb_refl_cases. now rewrite E.
    + apply eqb_refl_cases. now rewrite E.
  - intros H.
    destruct (Prim2SF x) as [s|[]| |[] m e] eqn:E; try reflexivity;
      rewrite (proj2 (leb_zero_cases x)) in H by (now rewrite E);
      discriminate.
Qed.

(** A coverage percent from 0 to 100 gives a coverage fraction that is a
    number and at least 0. *)
Lemma coverage_fraction_nonneg (c : float) :
  (0 <=? c) = true -> (c <=? 100) = true ->
  is_finite (c / 100) = true /\ (0 <=? c / 100) = true.
Proof.
  intros H0 H100. apply leb_zero_cases in H0.
  rewrite leb_spec, Prim2SF_100 in H100.
  destruct (Prim2SF c) as [s|s| |s m e] eqn:E; try contradiction.
  - split.
    + apply is_finite_of_cases. now rewrite div_spec, E, Prim2SF_100.
    + apply leb_zero_cases. now rewrite div_spec, E, Prim2SF_100.
  - subst s. discriminate.
  - subst s.
    pose proof (div_100_finite_cases c false m e E) as Hf.
    pose proof (div_100_sign c false m e E) as Hs.
    split.
    + now apply is_finite_of_cases.
    + apply leb_zero_cases.
      destruct (Prim2SF (c / 100)); try contradiction; [exact I|exact Hs].
Qed.

(** A number that is at least 0, times a coverage fraction that is a number
    and at least 0, is at least 0 (so it is not NaN). *)
Lemma mul_nonneg (x q : float) :
  is_finite x = true -> (0 <=? x) = true ->
  is_finite q = true -> (0 <=? q) = true ->
  (0 <=? x * q) = true.
Proof.
  intros Fx Hx Fq Hq. apply leb_zero_cases in Hx, Hq. apply leb_zero_cases.
  destruct (is_finite_cases x Fx) as [[sx Ex]|[sx [mx [ex Ex]]]];
    destruct (is_finite_cases q Fq) as [[sq Eq]|[sq [mq [eq Eq]]]].
  - now rewrite mul_spec, Ex, Eq.
  - now rewrite mul_spec, Ex, Eq.
  - now rewrite mul_spec, Ex, Eq.
  - rewrite Ex in Hx. rewrite Eq in Hq. subst sx sq.
    pose proof (mul_finite_sign x q false false mx mq ex eq Ex Eq) as Hs.
    destruct (Prim2SF (x * q)); try contradiction; try exact I; exact Hs.
Qed.

End FloatFacts.

(** ** Dictionaries *)

Lemma dict_get_set_same {V} (k : string) (v : V) (d : dict V) :
  dict_get k (dict_set k v d) = Some v.
Proof.
  induction d as [|[k' v'] rest IH]; simpl.
  - now rewrite String.eqb_refl.
  - destruct (String.eqb k k') eqn:E; simpl.
    + now rewrite String.eqb_refl.
    + now rewrite E.
Qed.

Lemma dict_get_set_other {V} (k k' : string) (v : V) (d : dict V) :
  k' <> k -> dict_get k' (dict_set k v d) = dict_get k' d.
Proof.
  intros Hne. induction d as [|[k0 v0] rest IH]; simpl.
  - destruct (String.eqb_spec k' k); [contradiction | reflexivity].
  - destruct (String.eqb_spec k k0) as [->|Hk]; simpl.
    + destruct (String.eqb_spec k' k0); [contradiction | reflexivity].
    + destruct (String.eqb k' k0); [reflexivity | exact IH].
Qed.

(** ** Billing: the computation *)

Lemma bill_charges_none (body : BillingRequest) (st : Store) :
  truthy (operation_id body) = None ->
  truthy (roomtype_name body) = None ->
  bill_charges body st = (Return (0%float, []), st).
Proof.
  intros Hop Hroom. unfold bill_charges. rewrite Hop, Hroom. reflexivity.
Qed.

(** The insurance check, by the outcome of the policy lookup. *)
Lemma bill_insurance_spec (appt : Appointment.t) (body : BillingRequest)
  (S : float) (d : dict detail) (st : Store) :
  bill_insurance appt body S d st
  = match lookup_policy st appt with
    | NoPolicy => (Return (0%float, d), st)
    | Policy pol =>
        (Return ((S * (float_get (Insurancepolicy.coverage_percent pol) / 100))%float,
                 noted body pol d), st)
    | BadReference => (Raise InvalidId, st)
    end.
Proof.
  unfold bill_insurance, lookup_policy, bind, find_one, ObjectId_or_raise,
    ret, raise, noted.
  simpl.
  destruct (List.find _ (patientprofile st)) as [patient|]; [|reflexivity].
  destruct (truthy _) as [pid|]; [|reflexivity].
  destruct (ObjectId pid) as [o|]; [|reflexivity].
  destruct (List.find (by_id o) (insurancepolicy st)); reflexivity.
Qed.

(** Entering [generate_bill] past the appointment lookup. *)
Ltac enter_bill Hid Hfind :=
  unfold generate_bill;
  rewrite (bind_return _ _ _ _ _ (ObjectId_or_raise_some _ _ _ Hid));
  rewrite (bind_return _ _ _ _ _ (find_one_run c_appointment (by_id _) _));
  cbn [docs c_appointment]; rewrite Hfind.

(** When the appointment is found and both phases return, the bill is
    computed, persisted and returned. *)
Lemma generate_bill_returns (st : Store) (appointment_id : string)
  (body : BillingRequest) (aid : oid) (appt : Doc Appointment.t)
  (S D : float) (d d' : dict detail) :
  ObjectId appointment_id = Some aid ->
  List.find (by_id aid) (appointment st) = Some appt ->
  eval (bill_charges body) st = Return (S, d) ->
  eval (bill_insurance (fields appt) body S d) st = Return (D, d') ->
  let T := pymax 0 (S - D)%float in
  generate_bill appointment_id body st
  = (Return (mkBillResponse (str_of_oid (next_oid st)) S D T d'),
     with_bill st (Billing.mk appointment_id S D T d')).
Proof.
  intros Hid Hfind Hch Hins T. subst T.
  enter_bill Hid Hfind.
  rewrite (bind_return _ _ _ _ _
             (run_of_eval _ _ _ (bill_charges_store body st) Hch)).
  rewrite (bind_return _ _ _ _ _
             (run_of_eval _ _ _
                (bill_insurance_store (fields appt) body S d st) Hins)).
  reflexivity.
Qed.

(** A malformed policy reference on the patient's profile stops the bill
    with an uncaught [InvalidId]; nothing is persisted. *)
Lemma generate_bill_bad_reference (st : Store) (appointment_id : string)
  (body : BillingRequest) (aid : oid) (appt : Doc Appointment.t)
  (S : float) (d : dict detail) :
  ObjectId appointment_id = Some aid ->
  List.find (by_id aid) (appointment st) = Some appt ->
  eval (bill_charges body) st = Return (S, d) ->
  lookup_policy st (fields appt) = BadReference ->
  generate_bill appointment_id body st = (Raise InvalidId, st).
Proof.
  intros Hid Hfind Hch Hpol.
  enter_bill Hid Hfind.
  rewrite (bind_return _ _ _ _ _
             (run_of_eval _ _ _ (bill_charges_store body st) Hch)).
  apply bind_raise. rewrite bill_insurance_spec, Hpol. reflexivity.
Qed.

(** ** Billing: the spec's worked examples *)

Example bill_800_no_insurance :
  eval (generate_bill "000000000000000000000002" surgery_in_deluxe)
    uninsured_store
  = Return (mkBillResponse "000000000000000000000003" 800 0 800
              surgery_in_deluxe_details).
Proof. reflexivity. Qed.

Example bill_800_coverage_20 :
  eval (generate_bill "000000000000000000000003" surgery_in_deluxe)
    insured_store
  = Return (mkBillResponse "000000000000000000000005" 800 160 640
              (surgery_in_deluxe_details
               ++ [("insurance_note", insurance_note)])%list).
Proof. reflexivity. Qed.

(** ** Billing: charges and policy, in words and in code *)

Lemma charged_bill_charges (st : Store) (body : BillingRequest) (S : float)
  (d : dict detail) :
  charged st body S d -> eval (bill_charges body) st = Return (S, d).
Proof.
  intros (S0 & d0 & Hop & Hroom).
  unfold eval, bill_charges, bind, ObjectId_or_raise, find_one, ret, raise.
  cbv beta.
  destruct Hop as [Hno|op_id o op price Hg Hid Hf Hp].
  - rewrite (not_given_truthy _ Hno).
    destruct Hroom as [Hnr|rname room rprice Hgr Hfr Hpr].
    + now rewrite (not_given_truthy _ Hnr).
    + rewrite (given_truthy _ _ Hgr). cbn [docs c_roomtype fst snd].
      rewrite (find_first_such _ _ _ _ (fun x => String.eqb_eq _ _) Hfr).
      subst rprice. reflexivity.
  - rewrite (given_truthy _ _ Hg), Hid. cbn [docs c_operation fst snd].
    rewrite (find_by_id_first_such _ _ _ Hf). cbn [fst snd].
    destruct Hroom as [Hnr|rname room rprice Hgr Hfr Hpr].
    + rewrite (not_given_truthy _ Hnr). subst price. reflexivity.
    + rewrite (given_truthy _ _ Hgr). cbn [docs c_roomtype fst snd].
      rewrite (find_first_such _ _ _ _ (fun x => String.eqb_eq _ _) Hfr).
      subst price rprice. reflexivity.
Qed.

(** The details of the charges hold no note yet, so the note goes last. *)
Lemma charged_note (st : Store) (body : BillingRequest) (S : float)
  (d : dict detail) :
  charged st body S d ->
  dict_set "insurance_note" insurance_note d = (d ++ [note_entry])%list.
Proof.
  intros (S0 & d0 & Hop & Hroom). destruct Hop; destruct Hroom; reflexivity.
Qed.

Lemma policy_applies_lookup (st : Store) (appt : Appointment.t)
  (pol : Insurancepolicy.t) :
  policy_applies st appt pol -> lookup_policy st appt = Policy pol.
Proof.
  intros (profile & pid & o & doc & Hp & Hg & Hid & Hd & <-).
  unfold lookup_policy.
  rewrite (find_first_such _ _ _ _ (fun x => String.eqb_eq _ _) Hp).
  rewrite (given_truthy _ _ Hg), Hid, (find_by_id_first_such _ _ _ Hd).
  reflexivity.
Qed.

Lemma str_in_false (x : string) (xs : list string) :
  ~ In x xs -> str_in x xs = false.
Proof.
  unfold str_in. induction xs as [|y xs IH]; simpl; [reflexivity|].
  intros H. destruct (String.eqb_spec x y) as [E|E].
  - exfalso. apply H. left. congruence.
  - apply IH. intros Hin. apply H. now right.
Qed.

(** A bill under a policy: what is returned and what the store becomes. *)
Lemma generate_bill_under_policy (st : Store) (appointment_id : string)
  (body : BillingRequest) (aid : oid) (appt : Doc Appointment.t)
  (S C : float) (d : dict detail) (pol : Insurancepolicy.t) :
  ObjectId appointment_id = Some aid ->
  first_such (fun a => _id a = aid) (appointment st) appt ->
  charged st body S d ->
  policy_applies st (fields appt) pol ->
  Insurancepolicy.coverage_percent pol = Some C ->
  let D := (S * (C / 100))%float in
  let T := pymax 0 (S - D)%float in
  let d' := noted body pol d in
  generate_bill appointment_id body st
  = (Return (mkBillResponse (str_of_oid (next_oid st)) S D T d'),
     with_bill st (Billing.mk appointment_id S D T d')).
Proof.
  intros Hid Hfirst Hch Hpol HC D T d'.
  apply find_by_id_first_such in Hfirst.
  apply charged_bill_charges in Hch.
  apply policy_applies_lookup in Hpol.
  assert (Hins : eval (bill_insurance (fields appt) body S d) st
                 = Return (D, d')).
  { unfold eval. rewrite bill_insurance_spec, Hpol, HC. reflexivity. }
  exact (generate_bill_returns st appointment_id body aid appt S D d d'
           Hid Hfirst Hch Hins).
Qed.

(** ** Billing: the sample store, in words *)

Lemma insured_appointment_first :
  first_such (fun a => _id a = 3%N) (appointment insured_store)
    insured_appointment.
Proof. exists [], []. repeat split. constructor. Qed.

Lemma insured_charged :
  charged insured_store surgery_in_deluxe 800 surgery_in_deluxe_details.
Proof.
  exists 500%float, [("operation", charge (PStr "surgery") 500%float)].
  split.
  - apply (charged_operation insured_store surgery_in_deluxe
             "000000000000000000000000" 0%N
             (mkDoc 0%N (Operation.mk (Some "surgery") (Some 500%float)))
             500%float).
    + split; [reflexivity | discriminate].
    + reflexivity.
    + exists [], [].
      repeat split. constructor.
    + reflexivity.
  - change (room_charged insured_store surgery_in_deluxe 500
              [("operation", charge (PStr "surgery") 500%float)]
              (500 + 300)
              ([("operation", charge (PStr "surgery") 500%float)]
               ++ [("room",
                    DDict [("name",
                            PStr (Roomtype.name
                                    (fields
                                       (mkDoc 1%N
                                          (Roomtype.mk "deluxe"
                                             (Some 300%float))))));
                           ("price", PFloat 300)])])%list).
    apply (charged_room insured_store surgery_in_deluxe 500%float _
             "deluxe"
             (mkDoc 1%N (Roomtype.mk "deluxe" (Some 300%float)))
             300%float).
    + split; [reflexivity | discriminate].
    + exists [], []. repeat split. constructor.
    + reflexivity.
Qed.

Lemma insured_policy_applies :
  policy_applies insured_store (fields insured_appointment) basic_policy.
Proof.
  exists (mkDoc 4%N (PatientProfile.mk "p1"
                       (Some "000000000000000000000002"))),
    "000000000000000000000002", 2%N, (mkDoc 2%N basic_policy).
  split; [exists [], []; repeat split; constructor|].
  split; [split; [reflexivity | discriminate]|].
  split; [reflexivity|].
  split; [exists [], []; repeat split; constructor | reflexivity].
Qed.

(** ** Billing: the claims *)

(** C1: when the charges come to a subtotal S >= 0 and the applicable policy
    has coverage C in [0,100], the bill has discount = S * (C / 100) and
    total = max(0, S - discount); the response carries subtotal, discount,
    total and details, and the Billing document persisted holds the same
    four values. The details are those of the charges, with at most the
    advisory note after them. The arithmetic is the handler's binary64
    arithmetic: within the bounds the coverage fraction C / 100 is a number
    and at least 0, and so is the discount of a finite subtotal. *)
Theorem bill_discount_and_total (st : Store) (appointment_id : string)
  (body : BillingRequest) (aid : oid) (appt : Doc Appointment.t)
  (S C : float) (d : dict detail) (pol : Insurancepolicy.t) :
  ObjectId appointment_id = Some aid ->
  first_such (fun a => _id a = aid) (appointment st) appt ->
  charged st body S d ->
  policy_applies st (fields appt) pol ->
  Insurancepolicy.coverage_percent pol = Some C ->
  (0 <=? S)%float = true ->
  (0 <=? C)%float = true ->
  (C <=? 100)%float = true ->
  let D := (S * (C / 100))%float in
  exists T d',
    eval (generate_bill appointment_id body) st
    = Return (mkBillResponse (str_of_oid (next_oid st)) S D T d')
    /\ billing (exec (generate_bill appointment_id body) st)
       = (billing st
          ++ [mkDoc (next_oid st) (Billing.mk appointment_id S D T d')])%list
    /\ max_zero (S - D)%float T
    /\ (d' = d \/ d' = (d ++ [note_entry])%list)
    /\ is_finite (C / 100)%float = true
    /\ (0 <=? C / 100)%float = true
    /\ (is_finite S = true -> (0 <=? D)%float = true).
Proof.
  intros Hid Hfirst Hch Hpol HC HS HC0 HC100 D.
  pose proof (generate_bill_under_policy st appointment_id body aid appt S C d
                pol Hid Hfirst Hch Hpol HC) as E.
  cbv zeta in E. fold D in E.
  destruct (coverage_fraction_nonneg C HC0 HC100) as [Hfin Hpos].
  exists (pymax 0 (S - D)%float), (noted body pol d).
  unfold eval, exec. rewrite E.
  split; [reflexivity|]. split; [reflexivity|].
  split; [apply pymax_max_zero|].
  split.
  { unfold noted. destruct (room_not_covered body pol).
    - right. exact (charged_note st body S d Hch).
    - left. reflexivity. }
  split; [exact Hfin|]. split; [exact Hpos|].
  intros HSfin. now apply mul_nonneg.
Qed.

Lemma bill_discount_and_total_witness :
  exists T d',
    eval (generate_bill "000000000000000000000003" surgery_in_deluxe)
      insured_store
    = Return (mkBillResponse "000000000000000000000005" 800 160 T d')
    /\ max_zero 640 T.
Proof.
  pose proof insured_appointment_first as Hfirst.
  pose proof insured_charged as Hch.
  pose proof insured_policy_applies as Hpol.
  assert (Hid : ObjectId "000000000000000000000003" = Some 3%N)
    by reflexivity.
  destruct (bill_discount_and_total insured_store "000000000000000000000003"
              surgery_in_deluxe 3%N insured_appointment 800%float 20%float
              surgery_in_deluxe_details basic_policy
              Hid Hfirst Hch Hpol eq_refl eq_refl eq_refl eq_refl)
    as (T & d' & E & _ & HT & _).
  exists T, d'. split; [exact E | exact HT].
Defined.

(** C5, the counterexample: the patient's policy allows only "normal"
    rooms and the request asks for a "suite", which the policy does not
    list and of which the store holds no room type document. The request
    is rejected with a 404 before the insurance is looked at: nothing is
    discounted and nothing persisted. *)
Lemma bill_room_not_covered_unknown_room_404 :
  let body := mkBillingRequest None (Some "suite") in
  policy_applies insured_store (fields insured_appointment) basic_policy
  /\ Insurancepolicy.allowed_roomtypes basic_policy = Some ["normal"]
  /\ ~ In "suite" ["normal"]
  /\ eval (generate_bill "000000000000000000000003" body) insured_store
     = Raise (HTTPException 404 "Room type not found")
  /\ status_of (eval (generate_bill "000000000000000000000003" body)
                  insured_store) = 404%Z
  /\ exec (generate_bill "000000000000000000000003" body) insured_store
     = insured_store.
Proof.
  intros body. split; [exact insured_policy_applies|].
  split; [reflexivity|].
  split; [intros [H|[]]; discriminate H|].
  repeat split.
Qed.

(** C5, as amended: for an existing appointment, when the operation and the
    room type asked for exist (the charges come to S with the details d),
    and the patient's policy does not list the requested room type, the
    bill is still computed and persisted with the full coverage discount
    S * (C / 100) and the total max(0, S - discount); the details are those
    of the charges followed by the advisory note, and nothing else. The
    answer is never a rejection: it is 200 when the bill encodes as JSON,
    and 500 if an amount is not a finite number. *)
Theorem bill_room_not_covered_still_discounted (st : Store)
  (appointment_id : string) (body : BillingRequest) (aid : oid)
  (appt : Doc Appointment.t) (S C : float) (d : dict detail)
  (pol : Insurancepolicy.t) (rname : string) :
  ObjectId appointment_id = Some aid ->
  first_such (fun a => _id a = aid) (appointment st) appt ->
  charged st body S d ->
  policy_applies st (fields appt) pol ->
  Insurancepolicy.coverage_percent pol = Some C ->
  given (roomtype_name body) rname ->
  (forall l, Insurancepolicy.allowed_roomtypes pol = Some l -> ~ In rname l) ->
  let D := (S * (C / 100))%float in
  let d' := (d ++ [("insurance_note",
                    DStr "Selected room type not covered by insurance")])%list in
  exists T,
    let bill := mkBillResponse (str_of_oid (next_oid st)) S D T d' in
    eval (generate_bill appointment_id body) st = Return bill
    /\ max_zero (S - D)%float T
    /\ billing (exec (generate_bill appointment_id body) st)
       = (billing st
          ++ [mkDoc (next_oid st) (Billing.mk appointment_id S D T d')])%list
    /\ status_of (eval (generate_bill appointment_id body) st)
       = (if json_ok bill then 200 else 500)%Z.
Proof.
  intros Hid Hfirst Hch Hpol HC Hroom Hnot D d'.
  pose proof (generate_bill_under_policy st appointment_id body aid appt S C d
                pol Hid Hfirst Hch Hpol HC) as E.
  cbv zeta in E. fold D in E.
  assert (Hd : noted body pol d = d').
  { unfold noted, room_not_covered.
    rewrite (given_truthy _ _ Hroom).
    assert (Hin : str_in rname (allowed_list pol) = false).
    { apply str_in_false. unfold allowed_list.
      destruct (Insurancepolicy.allowed_roomtypes pol) as [l|] eqn:El.
      - now apply Hnot.
      - intros []. }
    rewrite Hin. exact (charged_note st body S d Hch). }
  rewrite Hd in E.
  exists (pymax 0 (S - D)%float). cbv zeta.
  unfold eval, exec. rewrite E.
  split; [reflexivity|]. split; [apply pymax_max_zero|].
  split; reflexivity.
Qed.

Lemma bill_room_not_covered_still_discounted_witness :
  exists T,
    eval (generate_bill "000000000000000000000003" surgery_in_deluxe)
      insured_store
    = Return (mkBillResponse "000000000000000000000005" 800 160 T
                (surgery_in_deluxe_details
                 ++ [("insurance_note",
                      DStr "Selected room type not covered by insurance")])%list)
    /\ max_zero 640 T.
Proof.
  pose proof insured_appointment_first as Hfirst.
  pose proof insured_charged as Hch.
  pose proof insured_policy_applies as Hpol.
  assert (Hid : ObjectId "000000000000000000000003" = Some 3%N)
    by reflexivity.
  assert (Hroom : given (roomtype_name surgery_in_deluxe) "deluxe")
    by (split; [reflexivity | discriminate]).
  assert (Hnot : forall l,
             Insurancepolicy.allowed_roomtypes basic_policy = Some l ->
             ~ In "deluxe" l).
  { intros l [= <-] [H|[]]. discriminate H. }
  destruct (bill_room_not_covered_still_discounted insured_store
              "000000000000000000000003" surgery_in_deluxe 3%N
              insured_appointment 800%float 20%float
              surgery_in_deluxe_details basic_policy "deluxe"
              Hid Hfirst Hch Hpol eq_refl Hroom Hnot)
    as (T & E & HT & _).
  exists T. split; [exact E | exact HT].
Defined.

Lemma no_policy_on_file_lookup (st : Store) (appt : Appointment.t) :
  no_policy_on_file st appt -> lookup_policy st appt = NoPolicy.
Proof.
  unfold no_policy_on_file, lookup_policy.
  intros [H|[[p [H1 H2]]|[p [pid [o [H1 [H2 [H3 H4]]]]]]]].
  - now rewrite H.
  - now rewrite H1, H2.
  - now rewrite H1, H2, H3, H4.
Qed.

(** C7: a profile that references the policy "policy-42", of which the
    store holds no document: the referenced policy document is missing. The
    reference is not an identifier, [ObjectId] raises at line 219, and the
    request ends in a 500 with no bill at all, so with no discount 0 and no
    total equal to the subtotal. *)
Theorem bill_missing_policy_reference_raises :
  let st := exec (create_appointment "p1"
                    (mkAppointmentRequest "d1" "2024-05-01T10:00" None None) ;;;
                  create_document c_patientprofile
                    (PatientProfile.mk "p1" (Some "policy-42")))
              empty_store in
  let body := mkBillingRequest None None in
  insurancepolicy st = []
  /\ patientprofile st = [mkDoc 1%N (PatientProfile.mk "p1" (Some "policy-42"))]
  /\ eval (generate_bill "000000000000000000000000" body) st = Raise InvalidId
  /\ status_of (eval (generate_bill "000000000000000000000000" body) st)
     = 500%Z
  /\ exec (generate_bill "000000000000000000000000" body) st = st
  /\ billing (exec (generate_bill "000000000000000000000000" body) st) = [].
Proof. repeat split. Qed.

(** An operation stored with the price -5 (the admin endpoint accepts it,
    though the schema says prices are at least 0) and a patient without a
    profile. The bill has subtotal -5, discount 0 and total 0, so its total
    is not its subtotal. *)
Lemma bill_negative_subtotal_total_differs :
  let st := exec (create_operation (mkOperationCreate "refund" (-5)%float) ;;;
                  create_appointment "p1"
                    (mkAppointmentRequest "d1" "2024-05-01T10:00" None None))
              empty_store in
  let body := mkBillingRequest (Some "000000000000000000000000") None in
  patientprofile st = []
  /\ eval (generate_bill "000000000000000000000001" body) st
     = Return (mkBillResponse "000000000000000000000002" (-5) 0 0
                 [("operation", charge (PStr "refund") (-5)%float)])
  /\ match eval (generate_bill "000000000000000000000001" body) st with
     | Return bill =>
         discount bill = 0%float
         /\ (total bill =? subtotal bill)%float = false
     | Raise _ => False
     end.
Proof. repeat split. Qed.

(** With no policy on file, every reference being an identifier, the
    discount is 0 and the total is max(0, subtotal - 0): equal to the
    subtotal when the subtotal is not negative, and 0 when it is negative.
    The bill is persisted with these values. *)
Lemma bill_without_policy (st : Store) (appointment_id : string)
  (body : BillingRequest) (aid : oid) (appt : Doc Appointment.t)
  (S : float) (d : dict detail) :
  ObjectId appointment_id = Some aid ->
  List.find (by_id aid) (appointment st) = Some appt ->
  eval (bill_charges body) st = Return (S, d) ->
  no_policy_on_file st (fields appt) ->
  let T := pymax 0 (S - 0)%float in
  eval (generate_bill appointment_id body) st
  = Return (mkBillResponse (str_of_oid (next_oid st)) S 0 T d)
  /\ billing (exec (generate_bill appointment_id body) st)
     = (billing st
        ++ [mkDoc (next_oid st) (Billing.mk appointment_id S 0 T d)])%list
  /\ ((0 <=? S)%float = true -> (T =? S)%float = true)
  /\ ((S <? 0)%float = true -> T = 0%float).
Proof.
  intros Hid Hfind Hch Hno T.
  assert (Hins : eval (bill_insurance (fields appt) body S d) st
                 = Return (0%float, d)).
  { unfold eval.
    rewrite bill_insurance_spec, (no_policy_on_file_lookup _ _ Hno).
    reflexivity. }
  pose proof (generate_bill_returns st appointment_id body aid appt S 0 d d
                Hid Hfind Hch Hins) as E.
  unfold eval, exec. rewrite E. simpl. repeat split.
  - apply pymax_nonneg.
  - apply pymax_negative.
Qed.

Lemma bill_without_policy_witness :
  eval (generate_bill "000000000000000000000002" surgery_in_deluxe)
    uninsured_store
  = Return (mkBillResponse "000000000000000000000003" 800 0 800
              surgery_in_deluxe_details)
  /\ (800 =? 800)%float = true.
Proof.
  pose proof (bill_without_policy uninsured_store "000000000000000000000002"
                surgery_in_deluxe 2%N
                (mkDoc 2%N
                   (Appointment.mk "p1" "d1" "2024-05-01T10:00" None
                      "scheduled" None "pending"))
                800%float surgery_in_deluxe_details
                eq_refl eq_refl eq_refl (or_introl eq_refl)) as H.
  split.
  - exact (proj1 H).
  - exact (proj1 (proj2 (proj2 H)) eq_refl).
Defined.

(** C6: a policy stored through the admin endpoint with an infinite
    coverage percent (the endpoint accepts any float, though the schema
    bounds it by 100) and a patient whose profile points at it. A bill
    without operation and room has subtotal 0 and total 0, but its discount
    is 0 * (inf / 100), which is NaN and not 0; the persisted document holds
    the same NaN, and the answer is a 500, since NaN does not encode as
    JSON. *)
Theorem bill_nothing_charged_discount_nan :
  let st := exec (pol_id <- create_insurance
                              (mkInsuranceCreate "unbounded" [] infinity) ;;
                  create_appointment "p1"
                    (mkAppointmentRequest "d1" "2024-05-01T10:00" None None) ;;;
                  create_document c_patientprofile
                    (PatientProfile.mk "p1" (Some pol_id)))
              empty_store in
  let body := mkBillingRequest None None in
  eval (generate_bill "000000000000000000000001" body) st
  = Return (mkBillResponse "000000000000000000000003" 0 nan 0 [])
  /\ billing (exec (generate_bill "000000000000000000000001" body) st)
     = [mkDoc 3%N (Billing.mk "000000000000000000000001" 0 nan 0 [])]
  /\ (nan =? 0)%float = false
  /\ status_of (eval (generate_bill "000000000000000000000001" body) st)
     = 500%Z.
Proof. repeat split. Qed.

(** A bill for an existing appointment without operation and room has
    subtotal 0 and total 0, and is persisted so. Its discount is 0 when no
    policy applies; under a policy with coverage percent C it is
    0 * (C / 100), which equals 0 when C is a finite number (as every value
    within the schema's bounds is) and is NaN when C is an infinity or NaN.
    (A malformed policy reference is excluded: it raises before any bill is
    made.) *)
Lemma bill_nothing_charged (st : Store) (appointment_id : string)
  (body : BillingRequest) (aid : oid) (appt : Doc Appointment.t) :
  ObjectId appointment_id = Some aid ->
  List.find (by_id aid) (appointment st) = Some appt ->
  truthy (operation_id body) = None ->
  truthy (roomtype_name body) = None ->
  lookup_policy st (fields appt) <> BadReference ->
  let D := match lookup_policy st (fields appt) with
           | Policy pol =>
               (0 * (float_get (Insurancepolicy.coverage_percent pol) / 100))%float
           | _ => 0%float
           end in
  eval (generate_bill appointment_id body) st
  = Return (mkBillResponse (str_of_oid (next_oid st)) 0 D 0 [])
  /\ billing (exec (generate_bill appointment_id body) st)
     = (billing st
        ++ [mkDoc (next_oid st) (Billing.mk appointment_id 0 D 0 [])])%list
  /\ (lookup_policy st (fields appt) = NoPolicy -> D = 0%float)
  /\ (forall pol,
        lookup_policy st (fields appt) = Policy pol ->
        is_finite (float_get (Insurancepolicy.coverage_percent pol)) = true ->
        (D =? 0)%float = true)
  /\ (forall pol,
        lookup_policy st (fields appt) = Policy pol ->
        Insurancepolicy.valid pol = true ->
        (D =? 0)%float = true)
  /\ (forall pol,
        lookup_policy st (fields appt) = Policy pol ->
        is_finite (float_get (Insurancepolicy.coverage_percent pol)) = false ->
        is_nan D = true).
Proof.
  intros Hid Hfind Hop Hroom Hok D.
  assert (Hch : eval (bill_charges body) st = Return (0%float, [])).
  { unfold eval. now rewrite bill_charges_none. }
  assert (Hins : eval (bill_insurance (fields appt) body 0 []) st
                 = Return (D, [])).
  { unfold eval. rewrite bill_insurance_spec. subst D.
    destruct (lookup_policy st (fields appt)) as [|pol|];
      [reflexivity| |contradiction].
    unfold noted, room_not_covered. rewrite Hroom. reflexivity. }
  assert (HT : pymax 0 (0 - D)%float = 0%float).
  { apply pymax_zero_sub. subst D.
    destruct (lookup_policy st (fields appt)) as [|pol|].
    - left. now exists false.
    - apply mul_zero_l.
    - left. now exists false. }
  pose proof (generate_bill_returns st appointment_id body aid appt 0 D [] []
                Hid Hfind Hch Hins) as E.
  simpl in E. rewrite HT in E.
  assert (Hfinite : forall pol,
             lookup_policy st (fields appt) = Policy pol ->
             is_finite (float_get (Insurancepolicy.coverage_percent pol))
             = true ->
             (D =? 0)%float = true).
  { intros pol H Hfin. subst D. rewrite H.
    now apply mul_zero_l_finite, div_100_is_finite. }
  unfold eval, exec. rewrite E. simpl. repeat split.
  - intros H. subst D. now rewrite H.
  - exact Hfinite.
  - intros pol H Hvalid. apply (Hfinite pol H).
    unfold Insurancepolicy.valid in Hvalid. unfold float_get.
    destruct (Insurancepolicy.coverage_percent pol) as [c|].
    + now apply coverage_in_range_finite.
    + reflexivity.
  - intros pol H Hinf. subst D. rewrite H.
    now apply mul_zero_l_not_finite, div_100_not_finite.
Qed.

Lemma bill_nothing_charged_witness :
  eval (generate_bill "000000000000000000000003" (mkBillingRequest None None))
    insured_store
  = Return (mkBillResponse "000000000000000000000005" 0 0 0 []).
Proof.
  exact (proj1
           (bill_nothing_charged insured_store "000000000000000000000003"
              (mkBillingRequest None None) 3%N insured_appointment
              eq_refl eq_refl eq_refl eq_refl
              (fun H : lookup_policy insured_store (fields insured_appointment)
                       = BadReference =>
                 match H in (_ = y)
                   return match y with BadReference => False | _ => True end
                 with eq_refl => I end))).
Defined.

(** ** Login *)

Lemma same_account_new_user (req : LoginRequest) (o : oid) :
  same_account req (mkDoc o (new_user req)) = true.
Proof. unfold same_account. simpl. now rewrite !String.eqb_refl. Qed.

Lemma find_app_last {A} (f : A -> bool) (l : list A) (x : A) :
  List.find f l = None -> f x = true -> List.find f (l ++ [x]) = Some x.
Proof.
  intros Hnone Hx. induction l as [|a l IH]; simpl in *.
  - now rewrite Hx.
  - destruct (f a); [discriminate | auto].
Qed.

(** A login that finds the account returns it and writes nothing. *)
Lemma login_existing (req : LoginRequest) (st : Store) (u : Doc User.t) :
  List.find (same_account req) (user st) = Some u ->
  login req st = (Return (mkLoginResponse (str_of_oid (_id u)) (fields u)), st).
Proof.
  intros H. unfold login.
  rewrite (bind_return _ _ _ _ _
             (find_one_run c_user (same_account req) st)).
  change (docs c_user st) with (user st). rewrite H. reflexivity.
Qed.

(** A login that does not find the account adds exactly one user document,
    the new account's, at the end of the collection. *)
Lemma login_absent_users (req : LoginRequest) (st : Store) :
  List.find (same_account req) (user st) = None ->
  user (exec (login req) st)
  = (user st ++ [mkDoc (next_oid st) (new_user req)])%list.
Proof.
  intros H. unfold exec, login.
  rewrite (bind_return _ _ _ _ _
             (find_one_run c_user (same_account req) st)).
  change (docs c_user st) with (user st). rewrite H.
  unfold bind, create_document, ObjectId_or_raise, find_one, ret, raise.
  generalize (str_of_oid (next_oid st)) as user_id.
  generalize (str_of_oid (N.succ (next_oid st))) as profile_id.
  intros profile_id user_id.
  destruct (ObjectId user_id) as [o|]; [|reflexivity].
  cbv beta iota.
  destruct (String.eqb (login_role req) "doctor");
    destruct (String.eqb (login_role req) "patient"); cbv beta iota;
    match goal with
    | |- context [List.find ?f ?l] => destruct (List.find f l)
    end; reflexivity.
Qed.

Lemma find_by_id_fresh {A} (l : list (Doc A)) (o : oid) (x : A) :
  Forall (fun d => (_id d < o)%N) l ->
  List.find (by_id o) (l ++ [mkDoc o x]) = Some (mkDoc o x).
Proof.
  intros H. apply find_app_last.
  - induction H as [|d l Hd _ IH]; simpl; [reflexivity|].
    unfold by_id at 1. destruct (N.eqb_spec (_id d) o); [lia | exact IH].
  - unfold by_id. simpl. apply N.eqb_refl.
Qed.

(** The first login of an account returns the user it has just created. *)
Lemma login_absent_returns (req : LoginRequest) (st : Store) :
  List.find (same_account req) (user st) = None ->
  ids_fresh st ->
  eval (login req) st
  = Return (mkLoginResponse (str_of_oid (next_oid st)) (new_user req)).
Proof.
  intros H [Hbound Hfresh]. unfold eval, login.
  rewrite (bind_return _ _ _ _ _
             (find_one_run c_user (same_account req) st)).
  change (docs c_user st) with (user st). rewrite H.
  unfold bind, create_document, ObjectId_or_raise, find_one, ret, raise.
  rewrite (ObjectId_str_of_oid _ Hbound).
  cbn [docs with_docs c_user with_next_oid user].
  fold (new_user req).
  rewrite (find_by_id_fresh (user st) (next_oid st) (new_user req) Hfresh).
  destruct (String.eqb (login_role req) "doctor");
    destruct (String.eqb (login_role req) "patient"); reflexivity.
Qed.

(** C9: two logins in a row with the same (email, role). The second finds
    the account, returns it and leaves the whole store as the first left
    it; over both calls the user collection is either unchanged (the
    account was there) or has grown by the one new account. *)
Theorem login_twice_creates_one_user (st : Store) (req : LoginRequest) :
  let st1 := exec (login req) st in
  let st2 := exec (login req) st1 in
  st2 = st1
  /\ (exists u,
        List.find (same_account req) (user st1) = Some u
        /\ eval (login req) st1
           = Return (mkLoginResponse (str_of_oid (_id u)) (fields u)))
  /\ ((exists u, List.find (same_account req) (user st) = Some u)
        /\ user st2 = user st
      \/ List.find (same_account req) (user st) = None
         /\ user st2
            = (user st ++ [mkDoc (next_oid st) (new_user req)])%list)
  /\ (List.length (user st2) <= List.length (user st) + 1)%nat.
Proof.
  intros st1 st2.
  assert (Hfound : exists u, List.find (same_account req) (user st1) = Some u).
  { subst st1.
    destruct (List.find (same_account req) (user st)) as [u|] eqn:E.
    - exists u. unfold exec. now rewrite (login_existing req st u E).
    - eexists. rewrite (login_absent_users req st E).
      apply find_app_last; [exact E | apply same_account_new_user]. }
  destruct Hfound as [u Hu].
  assert (H21 : st2 = st1).
  { subst st2. unfold exec. now rewrite (login_existing req st1 u Hu). }
  split; [exact H21|]. split.
  { exists u. split; [exact Hu|].
    unfold eval. now rewrite (login_existing req st1 u Hu). }
  rewrite H21. subst st1.
  destruct (List.find (same_account req) (user st)) as [u0|] eqn:E.
  - assert (E1 : exec (login req) st = st).
    { unfold exec. now rewrite (login_existing req st u0 E). }
    rewrite E1. split.
    + left. split; [now exists u0 | reflexivity].
    + lia.
  - rewrite (login_absent_users req st E). split.
    + right. split; reflexivity.
    + rewrite length_app. simpl. lia.
Qed.

(** ** Worked examples *)

(** Two completed appointments and one scheduled, with a profile made by
    [login]: two points at the default rate. *)
Example stats_two_completed :
  let st := exec (login (mkLoginRequest "ann@clinic.org" "doctor")) empty_store in
  let done := Appointment.mk "p1" "000000000000000000000000" "2024-05-01T10:00"
                None "completed" None "paid" in
  let st := exec (create_document c_appointment done ;;;
                  create_document c_appointment done ;;;
                  create_appointment "p2"
                    (mkAppointmentRequest "000000000000000000000000"
                       "2024-05-02T10:00" None None)) st in
  eval (doctor_stats "000000000000000000000000") st
  = Return (mkStatsResponse 2 2 200%float).
Proof. reflexivity. Qed.

(** A doctor without a profile is paid at 100.0 per point. *)
Example stats_default_rate :
  let done := Appointment.mk "p1" "dr-nobody" "2024-05-01T10:00"
                None "completed" None "paid" in
  let st := exec (create_document c_appointment done) empty_store in
  doctorprofile st = []
  /\ eval (doctor_stats "dr-nobody") st = Return (mkStatsResponse 1 1 100%float).
Proof. split; reflexivity. Qed.

(** The first login of a doctor creates the user and the profile; the
    second creates nothing. *)
Example login_twice_doctor :
  let req := mkLoginRequest "ann@clinic.org" "doctor" in
  let st1 := exec (login req) empty_store in
  user st1 = [mkDoc 0%N (User.mk "ann" "ann@clinic.org" "doctor")]
  /\ doctorprofile st1
     = [mkDoc 1%N (DoctorProfile.mk "000000000000000000000000" None
                     (Some 100%float))]
  /\ exec (login req) st1 = st1.
Proof. repeat split. Qed.

(** * Further properties of the handlers *)

(** ** Lists and collections *)

Lemma filter_app_last {A} (f : A -> bool) (l : list A) (x : A) :
  List.filter f (l ++ [x])
  = (List.filter f l ++ (if f x then [x] else []))%list.
Proof. rewrite filter_app. reflexivity. Qed.

Lemma stringified_app {A} (l1 l2 : list (Doc A)) :
  stringified (l1 ++ l2) = (stringified l1 ++ stringified l2)%list.
Proof. unfold stringified. apply map_app. Qed.

Lemma find_by_id_none_below {A} (l : list (Doc A)) (n o : oid) :
  below n l -> (n <= o)%N -> List.find (by_id o) l = None.
Proof.
  intros H Hle. induction H as [|d l Hd _ IH]; simpl; [reflexivity|].
  unfold by_id at 1. destruct (N.eqb_spec (_id d) o); [lia | exact IH].
Qed.

Lemma find_by_id_in {A} (l : list (Doc A)) (d : Doc A) :
  distinct_ids l -> In d l -> List.find (by_id (_id d)) l = Some d.
Proof.
  unfold distinct_ids. induction l as [|x l IH]; simpl; intros Hnd Hin.
  - contradiction.
  - inversion Hnd as [|? ? Hx Hl]; subst.
    unfold by_id at 1. destruct (N.eqb_spec (_id x) (_id d)) as [E|E].
    + destruct Hin as [->|Hin]; [reflexivity|].
      exfalso. apply Hx. rewrite E. now apply in_map.
    + destruct Hin as [->|Hin]; [contradiction | now apply IH].
Qed.

Lemma find_by_id_some {A} (l : list (Doc A)) (o : oid) (d : Doc A) :
  List.find (by_id o) l = Some d -> In d l /\ _id d = o.
Proof.
  intros H. apply find_some in H as [Hin Hid]. split; [exact Hin|].
  now apply N.eqb_eq.
Qed.

(** ** The display name *)

Lemma local_part_no_at (s : string) :
  ~ In "@"%char (list_ascii_of_string (local_part s)).
Proof.
  induction s as [|c s IH]; simpl; [tauto|].
  destruct (Ascii.eqb_spec c "@"%char) as [->|Hc]; simpl; [tauto|].
  intros [E|Hin]; [congruence | contradiction].
Qed.

(** The display name [login] derives from an email is what precedes the
    first at-sign: it contains no at-sign, and the email is the name alone
    or the name, an at-sign and a rest. *)
Theorem local_part_is_prefix_before_at (s : string) :
  ~ In "@"%char (list_ascii_of_string (local_part s))
  /\ (s = local_part s
      \/ exists rest, s = local_part s ++ String "@"%char rest).
Proof.
  split; [apply local_part_no_at|].
  induction s as [|c s IH]; simpl.
  - now left.
  - destruct (Ascii.eqb_spec c "@"%char) as [->|Hc].
    + right. now exists s.
    + destruct IH as [IH|[rest IH]].
      * left. simpl. now f_equal.
      * right. exists rest. simpl. now f_equal.
Qed.

(** ** Login and the user listings *)

(** After a login the account is in the user collection. *)
Lemma login_account_exists (req : LoginRequest) (st : Store) :
  exists u, List.find (same_account req) (user (exec (login req) st)) = Some u.
Proof.
  destruct (List.find (same_account req) (user st)) as [u|] eqn:E.
  - exists u. unfold exec. now rewrite (login_existing req st u E).
  - eexists. rewrite (login_absent_users req st E).
    apply find_app_last; [exact E | apply same_account_new_user].
Qed.

(** The profiles a login leaves behind when the account was absent. *)
Lemma login_absent_profiles (req : LoginRequest) (st : Store) :
  List.find (same_account req) (user st) = None ->
  doctorprofile (exec (login req) st)
  = (if String.eqb (login_role req) "doctor"
     then (doctorprofile st
           ++ [mkDoc (N.succ (next_oid st))
                 (DoctorProfile.mk (str_of_oid (next_oid st)) None
                    (Some 100%float))])%list
     else doctorprofile st)
  /\ patientprofile (exec (login req) st)
     = (if String.eqb (login_role req) "patient"
        then (patientprofile st
              ++ [mkDoc (N.succ (next_oid st))
                    (PatientProfile.mk (str_of_oid (next_oid st)) None)])%list
        else patientprofile st).
Proof.
  intros H. unfold exec, login.
  rewrite (bind_return _ _ _ _ _
             (find_one_run c_user (same_account req) st)).
  change (docs c_user st) with (user st). rewrite H.
  unfold bind, create_document, ObjectId_or_raise, find_one, ret, raise.
  assert (Hparse : exists o, ObjectId (str_of_oid (next_oid st)) = Some o).
  { eexists. apply ObjectId_str_of_oid_mod. }
  destruct Hparse as [o Ho]. rewrite Ho.
  generalize (str_of_oid (next_oid st)) as user_id. intros user_id.
  cbv beta iota.
  destruct (String.eqb_spec (login_role req) "doctor") as [Hd|Hd];
    destruct (String.eqb_spec (login_role req) "patient") as [Hp|Hp];
    try (rewrite Hd in Hp; discriminate);
    cbv beta iota;
    match goal with
    | |- context [List.find ?f ?l] => destruct (List.find f l)
    end; split; reflexivity.
Qed.

(** The first login of an unknown (email, role) registers the account: it
    returns the new user, named after the email's local part, under the
    identifier the store hands out; the user collection grows by that user;
    a doctor gets a profile with the rate 100.0, a patient a profile without
    a policy, and any other role no profile at all. *)
Theorem login_registers_new_account (req : LoginRequest) (st : Store) :
  List.find (same_account req) (user st) = None ->
  ids_fresh st ->
  let user_id := str_of_oid (next_oid st) in
  let st' := exec (login req) st in
  eval (login req) st = Return (mkLoginResponse user_id (new_user req))
  /\ user st' = (user st ++ [mkDoc (next_oid st) (new_user req)])%list
  /\ doctorprofile st'
     = (if String.eqb (login_role req) "doctor"
        then (doctorprofile st
              ++ [mkDoc (N.succ (next_oid st))
                    (DoctorProfile.mk user_id None (Some 100%float))])%list
        else doctorprofile st)
  /\ patientprofile st'
     = (if String.eqb (login_role req) "patient"
        then (patientprofile st
              ++ [mkDoc (N.succ (next_oid st))
                    (PatientProfile.mk user_id None)])%list
        else patientprofile st).
Proof.
  intros H Hfresh user_id st'. subst user_id st'.
  split; [now apply login_absent_returns|].
  split; [now apply login_absent_users|].
  now apply login_absent_profiles.
Qed.

Lemma login_registers_new_account_witness :
  let req := mkLoginRequest "bob.stone@mail.org" "patient" in
  eval (login req) empty_store
  = Return (mkLoginResponse "000000000000000000000000"
              (User.mk "bob.stone" "bob.stone@mail.org" "patient"))
  /\ patientprofile (exec (login req) empty_store)
     = [mkDoc 1%N (PatientProfile.mk "000000000000000000000000" None)].
Proof.
  intros req.
  assert (Hfresh : ids_fresh empty_store).
  { split; [reflexivity | constructor]. }
  pose proof (login_registers_new_account req empty_store eq_refl Hfresh) as H.
  split.
  - exact (proj1 H).
  - exact (proj2 (proj2 (proj2 H))).
Defined.

(** A doctor who has logged in is listed by [list_doctors], with the email
    given at login. *)
Theorem doctor_listed_after_login (st : Store) (email : string) :
  let st' := exec (login (mkLoginRequest email "doctor")) st in
  exists listed u,
    eval list_doctors st' = Return listed
    /\ In u listed
    /\ User.email (snd u) = email
    /\ User.role (snd u) = "doctor".
Proof.
  intros st'. subst st'.
  set (req := mkLoginRequest email "doctor").
  destruct (login_account_exists req st) as [d Hd].
  apply find_some in Hd as [Hin Hsame].
  unfold same_account in Hsame. apply andb_prop in Hsame as [He Hr].
  apply String.eqb_eq in He, Hr. simpl in He, Hr.
  eexists. exists (str_of_oid (_id d), fields d).
  split; [reflexivity|]. split; [|split; assumption].
  unfold stringified.
  apply (in_map (fun d => (str_of_oid (_id d), fields d))).
  apply filter_In. split; [exact Hin|].
  now apply String.eqb_eq.
Qed.

(** ** Appointments *)

(** An appointment booked by a patient is "scheduled" with payment
    "pending", and from then on it is the last entry of the patient's and
    of the doctor's appointment lists, under the identifier returned. *)
Theorem appointment_created_is_listed (st : Store) (patient_id : string)
  (body : AppointmentRequest)
  (mine theirs : list (string * Appointment.t)) :
  eval (get_patient_appointments patient_id) st = Return mine ->
  eval (doctor_appointments (areq_doctor_id body)) st = Return theirs ->
  let st' := exec (create_appointment patient_id body) st in
  let new := (str_of_oid (next_oid st),
              Appointment.mk patient_id (areq_doctor_id body)
                (areq_scheduled_at body) (areq_reason body) "scheduled"
                (areq_payment_method body) "pending") in
  eval (create_appointment patient_id body) st = Return (fst new)
  /\ eval (get_patient_appointments patient_id) st' = Return (mine ++ [new])%list
  /\ eval (doctor_appointments (areq_doctor_id body)) st'
     = Return (theirs ++ [new])%list.
Proof.
  intros Hmine Htheirs st' new. subst st' new.
  unfold eval, get_patient_appointments, doctor_appointments,
    get_documents, bind, ret in *.
  simpl fst in *. inversion Hmine as [Hm]. inversion Htheirs as [Ht].
  split; [reflexivity|]. split.
  - cbn [exec create_appointment create_document snd docs c_appointment
         with_docs with_next_oid appointment].
    rewrite filter_app_last. cbn [fields Appointment.patient_id].
    rewrite String.eqb_refl, stringified_app. reflexivity.
  - cbn [exec create_appointment create_document snd docs c_appointment
         with_docs with_next_oid appointment].
    rewrite filter_app_last. cbn [fields Appointment.doctor_id].
    rewrite String.eqb_refl, map_app. reflexivity.
Qed.

Lemma appointment_created_is_listed_witness :
  let st := exec (create_appointment "p1"
                    (mkAppointmentRequest "d1" "2024-05-01T10:00" None None))
              empty_store in
  let body := mkAppointmentRequest "d1" "2024-06-01T09:00" (Some "checkup")
                (Some "online") in
  eval (get_patient_appointments "p1") (exec (create_appointment "p1" body) st)
  = Return [("000000000000000000000000",
             Appointment.mk "p1" "d1" "2024-05-01T10:00" None "scheduled"
               None "pending");
            ("000000000000000000000001",
             Appointment.mk "p1" "d1" "2024-06-01T09:00" (Some "checkup")
               "scheduled" (Some "online") "pending")].
Proof.
  intros st body.
  exact (proj1 (proj2
           (appointment_created_is_listed st "p1" body _ _ eq_refl eq_refl))).
Defined.

(** ** Payment updates *)

Lemma update_first_none {A} (f : A -> bool) (g : A -> A) (l : list A) :
  List.find f l = None -> update_first f g l = l.
Proof.
  induction l as [|x l IH]; simpl; [reflexivity|].
  destruct (f x); [discriminate|]. intros H. now rewrite IH.
Qed.

Lemma find_update_first_same {A} (f : A -> bool) (g : A -> A) (l : list A)
  (d : A) :
  List.find f l = Some d -> f (g d) = true ->
  List.find f (update_first f g l) = Some (g d).
Proof.
  intros H Hg. induction l as [|x l IH]; simpl in *; [discriminate|].
  destruct (f x) eqn:E.
  - inversion H; subst. simpl. now rewrite Hg.
  - simpl. rewrite E. now apply IH.
Qed.

Lemma find_update_first_other {A} (f f' : A -> bool) (g : A -> A)
  (l : list A) :
  (forall x, f' (g x) = f' x) ->
  (forall x, f x = true -> f' x = false) ->
  List.find f' (update_first f g l) = List.find f' l.
Proof.
  intros Hg Hdisj. induction l as [|x l IH]; simpl; [reflexivity|].
  destruct (f x) eqn:E; simpl.
  - now rewrite Hg, (Hdisj x E).
  - now rewrite IH.
Qed.

Lemma update_first_ids {A} (f : Doc A -> bool) (g : Doc A -> Doc A)
  (l : list (Doc A)) :
  (forall d, _id (g d) = _id d) ->
  map _id (update_first f g l) = map _id l.
Proof.
  intros Hg. induction l as [|x l IH]; simpl; [reflexivity|].
  destruct (f x); simpl; [now rewrite Hg | now rewrite IH].
Qed.

Lemma update_first_twice {A} (f : A -> bool) (g1 g2 : A -> A) (l : list A) :
  (forall x, f (g1 x) = f x) ->
  update_first f g2 (update_first f g1 l)
  = update_first f (fun x => g2 (g1 x)) l.
Proof.
  intros Hg. induction l as [|x l IH]; simpl; [reflexivity|].
  destruct (f x) eqn:E; simpl.
  - now rewrite Hg, E.
  - now rewrite E, IH.
Qed.

Lemma with_docs_appointment_same (st : Store) :
  with_docs c_appointment (appointment st) st = st.
Proof. destruct st. reflexivity. Qed.

(** A payment update for a well-formed identifier that names no appointment
    is answered as a success and changes nothing: there is no 404 on this
    path. *)
Theorem update_payment_missing_is_silent (st : Store)
  (appointment_id status : string) (o : oid) :
  ObjectId appointment_id = Some o ->
  List.find (by_id o) (appointment st) = None ->
  update_payment appointment_id status st = (Return tt, st).
Proof.
  intros Hid Hnone. unfold update_payment.
  rewrite (bind_return _ _ _ _ _ (ObjectId_or_raise_some _ _ st Hid)).
  unfold update_one. cbn [docs c_appointment].
  rewrite (update_first_none _ _ _ Hnone).
  now rewrite with_docs_appointment_same.
Qed.

Lemma update_payment_missing_is_silent_witness :
  update_payment "00000000000000000000beef" "paid" empty_store
  = (Return tt, empty_store).
Proof.
  exact (update_payment_missing_is_silent empty_store
           "00000000000000000000beef" "paid" 48879%N eq_refl eq_refl).
Defined.

(** A payment update that finds the appointment sets its payment status
    and nothing else: the appointment keeps its identifier and its other
    fields, the collection keeps its identifiers in order, and every other
    identifier still finds what it found before. *)
Theorem update_payment_sets_status (st : Store)
  (appointment_id status : string) (o : oid) (d : Doc Appointment.t) :
  ObjectId appointment_id = Some o ->
  List.find (by_id o) (appointment st) = Some d ->
  let st' := exec (update_payment appointment_id status) st in
  let a := fields d in
  eval (update_payment appointment_id status) st = Return tt
  /\ List.find (by_id o) (appointment st')
     = Some (mkDoc (_id d)
               (Appointment.mk (Appointment.patient_id a)
                  (Appointment.doctor_id a) (Appointment.scheduled_at a)
                  (Appointment.reason a) (Appointment.status a)
                  (Appointment.payment_method a) status))
  /\ map _id (appointment st') = map _id (appointment st)
  /\ (forall o', o' <> o ->
        List.find (by_id o') (appointment st')
        = List.find (by_id o') (appointment st)).
Proof.
  intros Hid Hfind st' a. subst st' a.
  unfold eval, exec, update_payment.
  rewrite (bind_return _ _ _ _ _ (ObjectId_or_raise_some _ _ st Hid)).
  unfold update_one. cbn [fst snd docs with_docs c_appointment appointment].
  split; [reflexivity|]. split; [|split].
  - rewrite (find_update_first_same _ _ _ _ Hfind); [reflexivity|].
    apply find_some in Hfind as [_ H]. exact H.
  - now apply update_first_ids.
  - intros o' Hne. apply find_update_first_other.
    + reflexivity.
    + intros x Hx. unfold by_id in *. apply N.eqb_eq in Hx.
      apply N.eqb_neq. congruence.
Qed.

Lemma update_payment_sets_status_witness :
  let st := exec (create_appointment "p1"
                    (mkAppointmentRequest "d1" "2024-05-01T10:00" None
                       (Some "online")))
              empty_store in
  List.find (by_id 0%N)
    (appointment (exec (update_payment "000000000000000000000000" "paid") st))
  = Some (mkDoc 0%N
            (Appointment.mk "p1" "d1" "2024-05-01T10:00" None "scheduled"
               (Some "online") "paid")).
Proof.
  intros st.
  exact (proj1 (proj2
           (update_payment_sets_status st "000000000000000000000000" "paid"
              0%N
              (mkDoc 0%N
                 (Appointment.mk "p1" "d1" "2024-05-01T10:00" None "scheduled"
                    (Some "online") "pending"))
              eq_refl eq_refl))).
Defined.

(** Of two payment updates of the same appointment the last one wins: the
    store after both is the store after the second alone. *)
Theorem update_payment_last_write_wins (st : Store)
  (appointment_id s1 s2 : string) :
  exec (update_payment appointment_id s2)
    (exec (update_payment appointment_id s1) st)
  = exec (update_payment appointment_id s2) st.
Proof.
  unfold exec, update_payment, bind, ObjectId_or_raise, ret, raise.
  destruct (ObjectId appointment_id) as [o|]; [|reflexivity].
  unfold update_one. cbn [fst snd docs with_docs c_appointment appointment].
  rewrite update_first_twice by reflexivity.
  destruct st; reflexivity.
Qed.

(** Marking an appointment as paid on delivery sets the payment method to
    "cod" and the payment status to "paid" on the appointment found, keeps
    its other fields, and doing it again changes nothing more. *)
Theorem admin_mark_cod_paid_effect (st : Store) (appointment_id : string)
  (o : oid) (d : Doc Appointment.t) :
  ObjectId appointment_id = Some o ->
  List.find (by_id o) (appointment st) = Some d ->
  let st' := exec (admin_mark_cod_paid appointment_id) st in
  let a := fields d in
  List.find (by_id o) (appointment st')
  = Some (mkDoc (_id d)
            (Appointment.mk (Appointment.patient_id a)
               (Appointment.doctor_id a) (Appointment.scheduled_at a)
               (Appointment.reason a) (Appointment.status a)
               (Some "cod") "paid"))
  /\ exec (admin_mark_cod_paid appointment_id) st' = st'.
Proof.
  intros Hid Hfind st' a. subst st' a.
  unfold exec, admin_mark_cod_paid.
  rewrite !(bind_return _ _ _ _ _ (ObjectId_or_raise_some _ _ _ Hid)).
  unfold update_one. cbn [fst snd docs with_docs c_appointment appointment].
  split.
  - rewrite (find_update_first_same _ _ _ _ Hfind); [reflexivity|].
    apply find_some in Hfind as [_ H]. exact H.
  - rewrite update_first_twice by reflexivity. reflexivity.
Qed.

Lemma admin_mark_cod_paid_effect_witness :
  let st := exec (admin_create_appointment
                    (mkAdminScheduleRequest "p1" "d1" "2024-05-01T10:00" None))
              empty_store in
  List.find (by_id 0%N)
    (appointment (exec (admin_mark_cod_paid "000000000000000000000000") st))
  = Some (mkDoc 0%N
            (Appointment.mk "p1" "d1" "2024-05-01T10:00" None "scheduled"
               (Some "cod") "paid")).
Proof.
  intros st.
  exact (proj1
           (admin_mark_cod_paid_effect st "000000000000000000000000" 0%N
              (mkDoc 0%N
                 (Appointment.mk "p1" "d1" "2024-05-01T10:00" None "scheduled"
                    None "pending"))
              eq_refl eq_refl)).
Defined.

(** ** Prescriptions *)

(** A prescription request for a well-formed identifier that names no
    appointment is answered 404 and writes nothing. *)
Theorem add_prescription_missing_appointment_404 (st : Store)
  (doctor_id : string) (body : PrescriptionRequest) (o : oid) :
  ObjectId (preq_appointment_id body) = Some o ->
  List.find (by_id o) (appointment st) = None ->
  add_prescription doctor_id body st
  = (Raise (HTTPException 404 "Appointment not found"), st).
Proof.
  intros Hid Hnone. unfold add_prescription.
  rewrite (bind_return _ _ _ _ _ (ObjectId_or_raise_some _ _ st Hid)).
  rewrite (bind_return _ _ _ _ _ (find_one_run c_appointment (by_id o) st)).
  cbn [docs c_appointment]. rewrite Hnone. reflexivity.
Qed.

Lemma add_prescription_missing_appointment_404_witness :
  add_prescription "d1"
    (mkPrescriptionRequest "00000000000000000000beef" None [] None)
    empty_store
  = (Raise (HTTPException 404 "Appointment not found"), empty_store).
Proof.
  exact (add_prescription_missing_appointment_404 empty_store "d1"
           (mkPrescriptionRequest "00000000000000000000beef" None [] None)
           48879%N eq_refl eq_refl).
Defined.

(** A prescription that was added is from then on the last entry of the
    prescriptions of its appointment and of the prescriptions in the
    history of the appointment's patient; the appointments of the history
    are as before. *)
Theorem prescription_added_is_retrievable (st : Store) (doctor_id : string)
  (body : PrescriptionRequest) (o : oid) (appt : Doc Appointment.t)
  (listed : list (string * Prescription.t))
  (appts : list (string * Appointment.t))
  (prescs : list (string * Prescription.t)) :
  ObjectId (preq_appointment_id body) = Some o ->
  List.find (by_id o) (appointment st) = Some appt ->
  eval (get_prescription_by_appointment (preq_appointment_id body)) st
  = Return listed ->
  eval (patient_history (Appointment.patient_id (fields appt))) st
  = Return (appts, prescs) ->
  let st' := exec (add_prescription doctor_id body) st in
  let new := (str_of_oid (next_oid st),
              Prescription.mk (preq_appointment_id body) doctor_id
                (Appointment.patient_id (fields appt)) (preq_notes body)
                (preq_medications body) (preq_follow_up_date body)) in
  eval (get_prescription_by_appointment (preq_appointment_id body)) st'
  = Return (listed ++ [new])%list
  /\ eval (patient_history (Appointment.patient_id (fields appt))) st'
     = Return (appts, (prescs ++ [new])%list).
Proof.
  intros Hid Hfind Hlisted Hhist st' new.
  assert (E : st' = exec (create_document c_prescription (snd new)) st).
  { subst st'. unfold exec, add_prescription.
    rewrite (bind_return _ _ _ _ _ (ObjectId_or_raise_some _ _ st Hid)).
    rewrite (bind_return _ _ _ _ _ (find_one_run c_appointment (by_id o) st)).
    cbn [docs c_appointment]. rewrite Hfind. reflexivity. }
  rewrite E. subst new.
  unfold eval, get_prescription_by_appointment, patient_history, find,
    bind, ret in *.
  cbn [fst snd] in *. inversion Hlisted as [Hl]. inversion Hhist as [[Ha Hp]].
  cbn [exec create_document snd docs c_prescription c_appointment
       with_docs with_next_oid appointment prescription].
  rewrite !filter_app_last.
  cbn [fields Prescription.appointment_id Prescription.patient_id].
  rewrite !String.eqb_refl, !stringified_app. split; reflexivity.
Qed.

Lemma prescription_added_is_retrievable_witness :
  let st := exec (create_appointment "patient-7"
                    (mkAppointmentRequest "d1" "2024-05-01T10:00" None None))
              empty_store in
  let body := mkPrescriptionRequest "000000000000000000000000"
                (Some "rest") ["aspirin"] None in
  eval (get_prescription_by_appointment "000000000000000000000000")
    (exec (add_prescription "d1" body) st)
  = Return [("000000000000000000000001",
             Prescription.mk "000000000000000000000000" "d1" "patient-7"
               (Some "rest") ["aspirin"] None)].
Proof.
  intros st body.
  exact (proj1
           (prescription_added_is_retrievable st "d1" body 0%N
              (mkDoc 0%N
                 (Appointment.mk "patient-7" "d1" "2024-05-01T10:00" None
                    "scheduled" None "pending"))
              _ _ _ eq_refl eq_refl eq_refl eq_refl)).
Defined.

(** ** The patients of a doctor *)

Lemma In_valid_oids (ids : list string) (o : oid) :
  In o (valid_oids ids) <-> exists pid, In pid ids /\ ObjectId pid = Some o.
Proof.
  unfold valid_oids. rewrite in_flat_map. split.
  - intros [pid [Hin Ho]]. exists pid. split; [exact Hin|].
    destruct (ObjectId pid) as [o'|]; simpl in Ho; [|contradiction].
    destruct Ho as [->|[]]. reflexivity.
  - intros [pid [Hin Ho]]. exists pid. split; [exact Hin|].
    rewrite Ho. now left.
Qed.

(** [doctor_patients] always returns, also when appointments carry patient
    ids that are not identifiers: those are skipped. The users listed are
    exactly the stored users whose identifier is the patient id of one of
    the doctor's appointments. The store is only read. *)
Theorem doctor_patients_lists_the_patients (st : Store) (doctor_id : string) :
  exists patients,
    doctor_patients doctor_id st = (Return (stringified patients), st)
    /\ forall u,
         In u patients
         <-> In u (user st)
             /\ exists a,
                  In a (appointment st)
                  /\ Appointment.doctor_id (fields a) = doctor_id
                  /\ ObjectId (Appointment.patient_id (fields a))
                     = Some (_id u).
Proof.
  exists (List.filter (fun d =>
            existsb (N.eqb (_id d))
              (valid_oids
                 (map (fun a => Appointment.patient_id (fields a))
                    (List.filter (fun d =>
                       String.eqb (Appointment.doctor_id (fields d)) doctor_id)
                       (appointment st)))))
            (user st)).
  split; [reflexivity|].
  intros u. rewrite filter_In, existsb_exists.
  split.
  - intros [Hin [o [Ho Heq]]]. split; [exact Hin|].
    apply N.eqb_eq in Heq. subst o.
    apply In_valid_oids in Ho as [pid [Hpid Hparse]].
    apply in_map_iff in Hpid as [a [Ha Hin_a]].
    apply filter_In in Hin_a as [Hin_a Hdoc].
    exists a. repeat split; [exact Hin_a | now apply String.eqb_eq | congruence].
  - intros [Hin [a [Hin_a [Hdoc Hparse]]]]. split; [exact Hin|].
    exists (_id u). split; [|apply N.eqb_refl].
    apply In_valid_oids. exists (Appointment.patient_id (fields a)).
    split; [|exact Hparse].
    apply in_map_iff. exists a. split; [reflexivity|].
    apply filter_In. split; [exact Hin_a | now apply String.eqb_eq].
Qed.

(** ** Billing: what a bill depends on and what it changes *)

Lemma bill_charges_run (body : BillingRequest) (st : Store) :
  bill_charges body st = (eval (bill_charges body) st, st).
Proof.
  pose proof (bill_charges_store body st) as H. unfold eval.
  destruct (bill_charges body st) as [r s]. simpl in *. now subst.
Qed.

Lemma bill_insurance_run (appt : Appointment.t) (body : BillingRequest)
  (S : float) (d : dict detail) (st : Store) :
  bill_insurance appt body S d st
  = (eval (bill_insurance appt body S d) st, st).
Proof.
  pose proof (bill_insurance_store appt body S d st) as H. unfold eval.
  destruct (bill_insurance appt body S d st) as [r s]. simpl in *. now subst.
Qed.

(** The bill as a function of its two phases. *)
Lemma generate_bill_run (st : Store) (appointment_id : string)
  (body : BillingRequest) :
  generate_bill appointment_id body st
  = match ObjectId appointment_id with
    | None => (Raise InvalidId, st)
    | Some o =>
        match List.find (by_id o) (appointment st) with
        | None => (Raise (HTTPException 404 "Appointment not found"), st)
        | Some appt =>
            match eval (bill_charges body) st with
            | Raise e => (Raise e, st)
            | Return (sub, d) =>
                match eval (bill_insurance (fields appt) body sub d) st with
                | Raise e => (Raise e, st)
                | Return (disc, d') =>
                    let tot := pymax 0 (sub - disc)%float in
                    (Return (mkBillResponse (str_of_oid (next_oid st))
                               sub disc tot d'),
                     with_bill st (Billing.mk appointment_id sub disc tot d'))
                end
            end
        end
    end.
Proof.
  unfold generate_bill.
  destruct (ObjectId appointment_id) as [o|] eqn:Hid.
  - rewrite (bind_return _ _ _ _ _ (ObjectId_or_raise_some _ _ st Hid)).
    rewrite (bind_return _ _ _ _ _ (find_one_run c_appointment (by_id o) st)).
    cbn [docs c_appointment].
    destruct (List.find (by_id o) (appointment st)) as [appt|]; [|reflexivity].
    unfold bind at 1. rewrite bill_charges_run.
    destruct (eval (bill_charges body) st) as [[S d]|e]; [|reflexivity].
    unfold bind at 1. rewrite bill_insurance_run.
    destruct (eval (bill_insurance (fields appt) body S d) st) as [[D d']|e];
      reflexivity.
  - apply bind_raise. now apply ObjectId_or_raise_none.
Qed.

(** Whatever the request, [generate_bill] writes at most one document, a
    bill: when it raises, the store is exactly as before; when it returns,
    the store has one more bill, which carries the appointment id of the
    request and the amounts of the response, and the other collections are
    as before. *)
Theorem generate_bill_writes_one_bill_or_nothing (st : Store)
  (appointment_id : string) (body : BillingRequest) :
  let st' := exec (generate_bill appointment_id body) st in
  match eval (generate_bill appointment_id body) st with
  | Raise _ => st' = st
  | Return bill =>
      billing st'
      = (billing st
         ++ [mkDoc (next_oid st)
               (Billing.mk appointment_id (subtotal bill) (discount bill)
                  (total bill) (details bill))])%list
      /\ billing_id bill = str_of_oid (next_oid st)
      /\ user st' = user st
      /\ doctorprofile st' = doctorprofile st
      /\ patientprofile st' = patientprofile st
      /\ appointment st' = appointment st
      /\ prescription st' = prescription st
      /\ operation st' = operation st
      /\ roomtype st' = roomtype st
      /\ insurancepolicy st' = insurancepolicy st
  end.
Proof.
  intros st'. subst st'. unfold eval at 1, exec.
  rewrite generate_bill_run.
  destruct (ObjectId appointment_id) as [o|]; [|reflexivity].
  destruct (List.find (by_id o) (appointment st)) as [appt|]; [|reflexivity].
  destruct (eval (bill_charges body) st) as [[S d]|e]; [|reflexivity].
  destruct (eval (bill_insurance (fields appt) body S d) st) as [[D d']|e];
    [|reflexivity].
  cbn. repeat split.
Qed.

Section ClampFacts.

Local Open Scope float_scope.

(** The clamp never gives a negative number or NaN. *)
Lemma pymax_zero_nonneg (x : float) : (0 <=? pymax 0 x) = true.
Proof.
  unfold pymax. destruct (0 <? x) eqn:E; [|reflexivity].
  rewrite ltb_spec in E. rewrite leb_spec.
  unfold SFltb in E. unfold SFleb.
  destruct (SFcompare (Prim2SF 0) (Prim2SF x)) as [[]|]; try discriminate.
  reflexivity.
Qed.

End ClampFacts.

(** The total of every bill returned is at least 0 (so it is never negative
    and never NaN), whatever prices and coverage the store holds. *)
Theorem bill_total_is_never_negative (st : Store) (appointment_id : string)
  (body : BillingRequest) (bill : BillResponse) :
  eval (generate_bill appointment_id body) st = Return bill ->
  (0 <=? total bill)%float = true.
Proof.
  unfold eval. rewrite generate_bill_run.
  destruct (ObjectId appointment_id) as [o|]; [|discriminate].
  destruct (List.find (by_id o) (appointment st)) as [appt|]; [|discriminate].
  destruct (eval (bill_charges body) st) as [[S d]|e]; [|discriminate].
  destruct (eval (bill_insurance (fields appt) body S d) st) as [[D d']|e];
    [|discriminate].
  cbn. intros H. inversion H; subst. cbn. apply pymax_zero_nonneg.
Qed.

Lemma bill_total_is_never_negative_witness :
  let st := exec (create_operation (mkOperationCreate "refund" (-5)%float) ;;;
                  create_appointment "p1"
                    (mkAppointmentRequest "d1" "2024-05-01T10:00" None None))
              empty_store in
  (0 <=? total (mkBillResponse "000000000000000000000002" (-5) 0 0
                  [("operation", charge (PStr "refund") (-5)%float)]))%float
  = true.
Proof.
  intros st.
  exact (bill_total_is_never_negative st "000000000000000000000001"
           (mkBillingRequest (Some "000000000000000000000000") None)
           (mkBillResponse "000000000000000000000002" (-5) 0 0
              [("operation", charge (PStr "refund") (-5)%float)])
           eq_refl).
Defined.

Lemma same_lookups_refl_billing (st : Store) (b : Billing.t) :
  same_lookups st (with_bill st b).
Proof. repeat split. Qed.

Lemma bill_charges_same (body : BillingRequest) (st1 st2 : Store) :
  same_lookups st1 st2 ->
  eval (bill_charges body) st1 = eval (bill_charges body) st2.
Proof.
  intros [_ [Hop [Hroom _]]].
  unfold eval, bill_charges, bind, ObjectId_or_raise, find_one, ret, raise.
  cbn [docs c_operation c_roomtype].
  destruct (truthy (operation_id body)) as [op_id|].
  - destruct (ObjectId op_id) as [o|]; [|reflexivity].
    rewrite <- (Hop o).
    destruct (List.find (by_id o) (operation st1)) as [op|]; [|reflexivity].
    destruct (truthy (roomtype_name body)) as [rname|]; [|reflexivity].
    rewrite <- (Hroom rname).
    destruct (List.find _ (roomtype st1)); reflexivity.
  - destruct (truthy (roomtype_name body)) as [rname|]; [|reflexivity].
    rewrite <- (Hroom rname).
    destruct (List.find _ (roomtype st1)); reflexivity.
Qed.

Lemma lookup_policy_same (appt : Appointment.t) (st1 st2 : Store) :
  same_lookups st1 st2 -> lookup_policy st1 appt = lookup_policy st2 appt.
Proof.
  intros [_ [_ [_ [Hprofile Hpolicy]]]]. unfold lookup_policy.
  rewrite <- (Hprofile (Appointment.patient_id appt)).
  destruct (List.find _ (patientprofile st1)) as [patient|]; [|reflexivity].
  destruct (truthy _) as [pid|]; [|reflexivity].
  destruct (ObjectId pid) as [o|]; [|reflexivity].
  now rewrite <- (Hpolicy o).
Qed.

Lemma bill_insurance_same (appt : Appointment.t) (body : BillingRequest)
  (S : float) (d : dict detail) (st1 st2 : Store) :
  same_lookups st1 st2 ->
  eval (bill_insurance appt body S d) st1
  = eval (bill_insurance appt body S d) st2.
Proof.
  intros H. unfold eval. rewrite !bill_insurance_spec.
  rewrite (lookup_policy_same appt st1 st2 H).
  destruct (lookup_policy st2 appt); reflexivity.
Qed.

(** A bill depends on the store only through its lookups. *)
Lemma generate_bill_same_lookups (appointment_id : string)
  (body : BillingRequest) (st1 st2 : Store) :
  same_lookups st1 st2 ->
  same_amounts (eval (generate_bill appointment_id body) st1)
    (eval (generate_bill appointment_id body) st2).
Proof.
  intros H. unfold eval at 1 2. rewrite !generate_bill_run.
  destruct (ObjectId appointment_id) as [o|]; [|reflexivity].
  rewrite <- (proj1 H o).
  destruct (List.find (by_id o) (appointment st1)) as [appt|]; [|reflexivity].
  rewrite <- (bill_charges_same body st1 st2 H).
  destruct (eval (bill_charges body) st1) as [[S d]|e]; [|reflexivity].
  rewrite <- (bill_insurance_same (fields appt) body S d st1 st2 H).
  destruct (eval (bill_insurance (fields appt) body S d) st1) as [[D d']|e];
    [|reflexivity].
  cbn. repeat split.
Qed.

(** The store after a bill, by the outcome. *)
Lemma generate_bill_exec (st : Store) (appointment_id : string)
  (body : BillingRequest) :
  exec (generate_bill appointment_id body) st
  = match eval (generate_bill appointment_id body) st with
    | Return bill =>
        with_bill st
          (Billing.mk appointment_id (subtotal bill) (discount bill)
             (total bill) (details bill))
    | Raise _ => st
    end.
Proof.
  unfold exec, eval. rewrite generate_bill_run.
  destruct (ObjectId appointment_id) as [o|]; [|reflexivity].
  destruct (List.find (by_id o) (appointment st)) as [appt|]; [|reflexivity].
  destruct (eval (bill_charges body) st) as [[S d]|e]; [|reflexivity].
  destruct (eval (bill_insurance (fields appt) body S d) st) as [[D d']|e];
    reflexivity.
Qed.

Lemma generate_bill_billing_id (st : Store) (appointment_id : string)
  (body : BillingRequest) (bill : BillResponse) :
  eval (generate_bill appointment_id body) st = Return bill ->
  billing_id bill = str_of_oid (next_oid st).
Proof.
  unfold eval. rewrite generate_bill_run.
  destruct (ObjectId appointment_id) as [o|]; [|discriminate].
  destruct (List.find (by_id o) (appointment st)) as [appt|]; [|discriminate].
  destruct (eval (bill_charges body) st) as [[S d]|e]; [|discriminate].
  destruct (eval (bill_insurance (fields appt) body S d) st) as [[D d']|e];
    [|discriminate].
  cbn. intros H. inversion H. reflexivity.
Qed.

(** Billing is not idempotent: the same request sent again gives the same
    outcome with the same amounts, and, when it returns, a second Billing
    document next to the first. *)
Theorem generate_bill_twice_bills_twice (st : Store) (appointment_id : string)
  (body : BillingRequest) :
  let st1 := exec (generate_bill appointment_id body) st in
  let st2 := exec (generate_bill appointment_id body) st1 in
  same_amounts (eval (generate_bill appointment_id body) st)
    (eval (generate_bill appointment_id body) st1)
  /\ forall bill,
       eval (generate_bill appointment_id body) st = Return bill ->
       let doc := Billing.mk appointment_id (subtotal bill) (discount bill)
                    (total bill) (details bill) in
       billing st2
       = (billing st
          ++ [mkDoc (next_oid st) doc; mkDoc (N.succ (next_oid st)) doc])%list.
Proof.
  intros st1 st2.
  assert (Hsame : same_amounts (eval (generate_bill appointment_id body) st)
                    (eval (generate_bill appointment_id body) st1)).
  { subst st1. rewrite generate_bill_exec.
    destruct (eval (generate_bill appointment_id body) st) as [bill|e] eqn:E.
    - rewrite <- E.
      apply generate_bill_same_lookups, same_lookups_refl_billing.
    - rewrite E. reflexivity. }
  split; [exact Hsame|].
  intros bill Hbill doc. subst st2.
  rewrite (generate_bill_exec st1).
  rewrite Hbill in Hsame.
  destruct (eval (generate_bill appointment_id body) st1) as [bill2|e];
    [|contradiction].
  destruct Hsame as [Hs [Hd [Ht Hdet]]].
  subst st1. rewrite generate_bill_exec, Hbill.
  rewrite <- Hs, <- Hd, <- Ht, <- Hdet. fold doc.
  cbn. rewrite <- app_assoc. reflexivity.
Qed.

Lemma generate_bill_twice_bills_twice_witness :
  let doc := Billing.mk "000000000000000000000002" 800 0 800
               surgery_in_deluxe_details in
  billing (exec (generate_bill "000000000000000000000002" surgery_in_deluxe)
             (exec (generate_bill "000000000000000000000002" surgery_in_deluxe)
                uninsured_store))
  = [mkDoc 3%N doc; mkDoc 4%N doc].
Proof.
  exact (proj2
           (generate_bill_twice_bills_twice uninsured_store
              "000000000000000000000002" surgery_in_deluxe)
           (mkBillResponse "000000000000000000000003" 800 0 800
              surgery_in_deluxe_details)
           eq_refl).
Defined.

(** A bill that was generated can be read back: it is from then on the
    last entry of the bills of its appointment, with the identifier and the
    amounts of the response. *)
Theorem bill_generated_is_retrievable (st : Store) (appointment_id : string)
  (body : BillingRequest) (bill : BillResponse)
  (listed : list (string * Billing.t)) :
  eval (generate_bill appointment_id body) st = Return bill ->
  eval (admin_get_billing appointment_id) st = Return listed ->
  eval (admin_get_billing appointment_id)
    (exec (generate_bill appointment_id body) st)
  = Return (listed
            ++ [(billing_id bill,
                 Billing.mk appointment_id (subtotal bill) (discount bill)
                   (total bill) (details bill))])%list.
Proof.
  intros Hbill Hlisted.
  rewrite generate_bill_exec, Hbill.
  rewrite (generate_bill_billing_id st appointment_id body bill Hbill).
  unfold eval, admin_get_billing, find, bind, ret in *.
  cbn [fst snd docs c_billing with_bill with_docs with_next_oid billing] in *.
  inversion Hlisted as [Hl].
  rewrite filter_app_last. cbn [fields Billing.appointment_id].
  rewrite String.eqb_refl, stringified_app. reflexivity.
Qed.

Lemma bill_generated_is_retrievable_witness :
  eval (admin_get_billing "000000000000000000000002")
    (exec (generate_bill "000000000000000000000002" surgery_in_deluxe)
       uninsured_store)
  = Return [("000000000000000000000003",
             Billing.mk "000000000000000000000002" 800 0 800
               surgery_in_deluxe_details)].
Proof.
  exact (bill_generated_is_retrievable uninsured_store
           "000000000000000000000002" surgery_in_deluxe
           (mkBillResponse "000000000000000000000003" 800 0 800
              surgery_in_deluxe_details)
           [] eq_refl eq_refl).
Defined.

Lemma find_app_first {A} (f : A -> bool) (l l' : list A) :
  List.find f (l ++ l')
  = match List.find f l with
    | Some x => Some x
    | None => List.find f l'
    end.
Proof.
  induction l as [|x l IH]; simpl; [reflexivity|].
  destruct (f x); [reflexivity | exact IH].
Qed.

(** A billing request that names a room type no document has is never
    billed and writes nothing; with the appointment found and no operation
    asked for, the answer is 404 "Room type not found". *)
Theorem bill_missing_room_404 (st : Store) (appointment_id : string)
  (body : BillingRequest) (rname : string) :
  truthy (roomtype_name body) = Some rname ->
  List.find (fun d => String.eqb (Roomtype.name (fields d)) rname)
    (roomtype st) = None ->
  exec (generate_bill appointment_id body) st = st
  /\ (forall bill,
        eval (generate_bill appointment_id body) st <> Return bill)
  /\ (forall o appt,
        ObjectId appointment_id = Some o ->
        List.find (by_id o) (appointment st) = Some appt ->
        truthy (operation_id body) = None ->
        eval (generate_bill appointment_id body) st
        = Raise (HTTPException 404 "Room type not found")).
Proof.
  intros Hroom Hnone.
  assert (Hch : exists e, eval (bill_charges body) st = Raise e
                /\ (truthy (operation_id body) = None ->
                    e = HTTPException 404 "Room type not found")).
  { unfold eval, bill_charges, bind, ObjectId_or_raise, find_one, ret, raise.
    cbn [docs c_operation c_roomtype].
    destruct (truthy (operation_id body)) as [op_id|].
    - destruct (ObjectId op_id) as [o|];
        [|eexists; split; [reflexivity | discriminate]].
      destruct (List.find (by_id o) (operation st));
        rewrite ?Hroom, ?Hnone;
        eexists; (split; [reflexivity | discriminate]).
    - rewrite Hroom, Hnone. eexists. split; reflexivity. }
  destruct Hch as [e [He Hop]].
  rewrite generate_bill_exec. unfold eval at 1 2 3.
  rewrite generate_bill_run, He.
  destruct (ObjectId appointment_id) as [o|].
  - destruct (List.find (by_id o) (appointment st)) as [appt|] eqn:Ef.
    + cbn. split; [reflexivity|]. split; [intros ? ?; discriminate|].
      intros o' appt' _ _ Hnoop. now rewrite (Hop Hnoop).
    + cbn. split; [reflexivity|]. split; [intros ? ?; discriminate|].
      intros o' appt' Ho Hf _. inversion Ho; subst. congruence.
  - cbn. split; [reflexivity|].
    split; [intros ? ?; discriminate | intros ? ? ?; discriminate].
Qed.

Lemma bill_missing_room_404_witness :
  eval (generate_bill "000000000000000000000002"
          (mkBillingRequest None (Some "suite")))
    uninsured_store
  = Raise (HTTPException 404 "Room type not found").
Proof.
  exact (proj2 (proj2
           (bill_missing_room_404 uninsured_store "000000000000000000000002"
              (mkBillingRequest None (Some "suite")) "suite"
              eq_refl eq_refl))
           2%N
           (mkDoc 2%N
              (Appointment.mk "p1" "d1" "2024-05-01T10:00" None "scheduled"
                 None "pending"))
           eq_refl eq_refl eq_refl).
Defined.

(** Room types are looked up by name and the first one stored wins:
    creating another room type under a name that is taken changes no bill,
    whatever its price. *)
Theorem roomtype_duplicate_name_changes_no_bill (st : Store)
  (room : Doc Roomtype.t) (dup : RoomCreate) (appointment_id : string)
  (body : BillingRequest) :
  List.find (fun d => String.eqb (Roomtype.name (fields d)) (rcr_name dup))
    (roomtype st) = Some room ->
  same_amounts (eval (generate_bill appointment_id body) st)
    (eval (generate_bill appointment_id body) (exec (create_roomtype dup) st)).
Proof.
  intros Hroom. apply generate_bill_same_lookups.
  repeat split.
  intros n. cbn. rewrite find_app_first.
  destruct (List.find (fun d => String.eqb (Roomtype.name (fields d)) n)
              (roomtype st)) as [x|] eqn:E; [reflexivity|].
  cbn. destruct (String.eqb_spec (rcr_name dup) n) as [Heq|Hne]; [|reflexivity].
  rewrite Heq in Hroom. congruence.
Qed.

Lemma roomtype_duplicate_name_changes_no_bill_witness :
  same_amounts
    (eval (generate_bill "000000000000000000000002" surgery_in_deluxe)
       uninsured_store)
    (eval (generate_bill "000000000000000000000002" surgery_in_deluxe)
       (exec (create_roomtype (mkRoomCreate "deluxe" 9000%float))
          uninsured_store)).
Proof.
  exact (roomtype_duplicate_name_changes_no_bill uninsured_store
           (mkDoc 1%N (Roomtype.mk "deluxe" (Some 300%float)))
           (mkRoomCreate "deluxe" 9000%float)
           "000000000000000000000002" surgery_in_deluxe eq_refl).
Defined.



(** A patient whose profile carries a policy reference that is not an
    identifier cannot be billed: the request fails with an uncaught
    [InvalidId] (status 500) although appointment, operation and room are
    all found, and no bill is written. *)
Theorem bill_with_malformed_policy_reference_fails (st : Store)
  (appointment_id : string) (body : BillingRequest) (aid : oid)
  (appt : Doc Appointment.t) (patient : Doc PatientProfile.t)
  (pid : string) (S : float) (d : dict detail) :
  ObjectId appointment_id = Some aid ->
  List.find (by_id aid) (appointment st) = Some appt ->
  eval (bill_charges body) st = Return (S, d) ->
  List.find (fun p =>
      String.eqb (PatientProfile.user_id (fields p))
        (Appointment.patient_id (fields appt))) (patientprofile st)
  = Some patient ->
  truthy (PatientProfile.insurance_policy_id (fields patient)) = Some pid ->
  ObjectId pid = None ->
  eval (generate_bill appointment_id body) st = Raise InvalidId
  /\ status_of (eval (generate_bill appointment_id body) st) = 500%Z
  /\ exec (generate_bill appointment_id body) st = st.
Proof.
  intros Hid Hfind Hch Hprofile Hpid Hbad.
  assert (Hlook : lookup_policy st (fields appt) = BadReference).
  { unfold lookup_policy. now rewrite Hprofile, Hpid, Hbad. }
  pose proof (generate_bill_bad_reference st appointment_id body aid appt S d
                Hid Hfind Hch Hlook) as E.
  unfold eval, exec. rewrite E. repeat split.
Qed.

Lemma bill_with_malformed_policy_reference_fails_witness :
  let st := exec (create_appointment "p1"
                    (mkAppointmentRequest "d1" "2024-05-01T10:00" None None) ;;;
                  create_document c_patientprofile
                    (PatientProfile.mk "p1" (Some "policy-42")))
              empty_store in
  eval (generate_bill "000000000000000000000000" (mkBillingRequest None None))
    st
  = Raise InvalidId.
Proof.
  intros st.
  exact (proj1
           (bill_with_malformed_policy_reference_fails st
              "000000000000000000000000" (mkBillingRequest None None) 0%N
              (mkDoc 0%N
                 (Appointment.mk "p1" "d1" "2024-05-01T10:00" None "scheduled"
                    None "pending"))
              (mkDoc 1%N (PatientProfile.mk "p1" (Some "policy-42")))
              "policy-42" 0%float []
              eq_refl eq_refl eq_refl eq_refl eq_refl eq_refl)).
Defined.

(** ** What the API as a whole keeps true *)

Lemma Forall_snoc {A} (P : A -> Prop) (l : list A) (x : A) :
  Forall P l -> P x -> Forall P (l ++ [x]).
Proof. intros Hl Hx. apply Forall_app. split; [exact Hl | now constructor]. Qed.

Lemma Forall_update_first {A} (P : A -> Prop) (f : A -> bool) (g : A -> A)
  (l : list A) :
  (forall x, P x -> P (g x)) -> Forall P l -> Forall P (update_first f g l).
Proof.
  intros Hg H. induction H as [|x l Hx Hl IH]; simpl; [constructor|].
  destruct (f x); constructor; auto.
Qed.

(** Without a policy reference on any profile, no policy is ever looked
    up. *)
Lemma lookup_policy_none (st : Store) (appt : Appointment.t) :
  Forall (fun d => PatientProfile.insurance_policy_id (fields d) = None)
    (patientprofile st) ->
  lookup_policy st appt = NoPolicy.
Proof.
  intros H. unfold lookup_policy.
  destruct (List.find _ (patientprofile st)) as [patient|] eqn:E;
    [|reflexivity].
  apply find_some in E as [Hin _].
  rewrite Forall_forall in H. now rewrite (H patient Hin).
Qed.

Lemma generate_bill_no_policy (st : Store) (appointment_id : string)
  (body : BillingRequest) (bill : BillResponse) :
  (forall appt, lookup_policy st appt = NoPolicy) ->
  eval (generate_bill appointment_id body) st = Return bill ->
  discount bill = 0%float
  /\ total bill = pymax 0 (subtotal bill - 0)%float
  /\ eval (bill_charges body) st = Return (subtotal bill, details bill).
Proof.
  intros Hno. unfold eval at 1. rewrite generate_bill_run.
  destruct (ObjectId appointment_id) as [o|]; [|discriminate].
  destruct (List.find (by_id o) (appointment st)) as [appt|]; [|discriminate].
  destruct (eval (bill_charges body) st) as [[S d]|e]; [|discriminate].
  unfold eval at 1. rewrite bill_insurance_spec, (Hno (fields appt)).
  cbn. intros H. inversion H; subst. cbn. repeat split.
Qed.

Lemma login_keeps_invariant (req : LoginRequest) (st : Store) :
  api_invariant st -> api_invariant (exec (login req) st).
Proof.
  intros [Hs Hr Hp Hd].
  destruct (List.find (same_account req) (user st)) as [u|] eqn:E.
  - unfold exec. rewrite (login_existing req st u E). now constructor.
  - pose proof (login_absent_profiles req st E) as [Hdoc Hpat].
    assert (Happ : appointment (exec (login req) st) = appointment st
                   /\ billing (exec (login req) st) = billing st).
    { unfold exec, login.
      rewrite (bind_return _ _ _ _ _
                 (find_one_run c_user (same_account req) st)).
      change (docs c_user st) with (user st). rewrite E.
      unfold bind, create_document, ObjectId_or_raise, find_one, ret, raise.
      generalize (str_of_oid (next_oid st)) as user_id. intros user_id.
      destruct (ObjectId user_id) as [o|]; [|split; reflexivity].
      cbv beta iota.
      destruct (String.eqb (login_role req) "doctor");
        destruct (String.eqb (login_role req) "patient"); cbv beta iota;
        match goal with
        | |- context [List.find ?f ?l] => destruct (List.find f l)
        end; split; reflexivity. }
    destruct Happ as [Happ Hbill].
    constructor.
    + now rewrite Happ.
    + rewrite Hdoc. destruct (String.eqb (login_role req) "doctor");
        [apply Forall_snoc|]; auto.
    + rewrite Hpat. destruct (String.eqb (login_role req) "patient");
        [apply Forall_snoc|]; auto.
    + now rewrite Hbill.
Qed.

Lemma update_keeps_invariant (st : Store) (o : oid)
  (set : Appointment.t -> Appointment.t) :
  (forall a, Appointment.status (set a) = Appointment.status a) ->
  api_invariant st ->
  api_invariant (exec (update_one c_appointment (by_id o) set) st).
Proof.
  intros Hset [Hs Hr Hp Hd]. constructor; cbn; auto.
  apply Forall_update_first; [|exact Hs].
  intros x Hx. cbn. now rewrite Hset.
Qed.

Lemma call_keeps_invariant (c : api_call) (st : Store) :
  api_invariant st -> api_invariant (call c st).
Proof.
  intros H. destruct c as [req|pid body|body|did body|aid status|aid|aid body
                           |body|body|body]; cbn [call].
  - now apply login_keeps_invariant.
  - destruct H as [Hs Hr Hp Hd]. constructor; cbn; auto.
    now apply Forall_snoc.
  - destruct H as [Hs Hr Hp Hd]. constructor; cbn; auto.
    now apply Forall_snoc.
  - unfold exec, add_prescription, bind, ObjectId_or_raise, find_one, ret,
      raise.
    destruct (ObjectId (preq_appointment_id body)) as [o|]; [|exact H].
    destruct (List.find (by_id o) (docs c_appointment st)) as [appt|];
      [|exact H].
    destruct H as [Hs Hr Hp Hd]. constructor; cbn; auto.
  - unfold exec, update_payment, bind, ObjectId_or_raise, ret, raise.
    destruct (ObjectId aid) as [o|]; [|exact H].
    now apply update_keeps_invariant.
  - unfold exec, admin_mark_cod_paid, bind, ObjectId_or_raise, ret, raise.
    destruct (ObjectId aid) as [o|]; [|exact H].
    now apply update_keeps_invariant.
  - rewrite generate_bill_exec.
    destruct (eval (generate_bill aid body) st) as [bill|e] eqn:E; [|exact H].
    destruct H as [Hs Hr Hp Hd].
    destruct (generate_bill_no_policy st aid body bill
                (fun appt => lookup_policy_none st appt Hp) E) as [Hdisc _].
    constructor; cbn; auto. now apply Forall_snoc.
  - destruct H as [Hs Hr Hp Hd]. constructor; cbn; auto.
  - destruct H as [Hs Hr Hp Hd]. constructor; cbn; auto.
  - destruct H as [Hs Hr Hp Hd]. constructor; cbn; auto.
Qed.

Lemma reachable_invariant (st : Store) : reachable st -> api_invariant st.
Proof.
  induction 1 as [|c st _ IH].
  - constructor; constructor.
  - now apply call_keeps_invariant.
Qed.

Lemma count_completed_scheduled (doctor_id : string)
  (l : list (Doc Appointment.t)) :
  Forall (fun d => Appointment.status (fields d) = "scheduled") l ->
  count_completed doctor_id l = 0%nat.
Proof.
  induction 1 as [|d l Hd _ IH]; simpl; [reflexivity|].
  unfold is_completed_for. rewrite Hd. cbn [String.eqb].
  rewrite andb_false_r. exact IH.
Qed.

(** No endpoint sets an appointment's status, and [login] is the only
    writer of doctor profiles. So in every store reached through the API
    from an empty database, every appointment is "scheduled" and the stats
    of every doctor, known or not, are 0 patients, 0 points and salary 0. *)
Theorem api_stats_are_always_zero (st : Store) (doctor_id : string) :
  reachable st ->
  Forall (fun d => Appointment.status (fields d) = "scheduled")
    (appointment st)
  /\ doctor_stats doctor_id st = (Return (mkStatsResponse 0 0 0%float), st).
Proof.
  intros Hreach. destruct (reachable_invariant st Hreach) as [Hs Hr _ _].
  split; [exact Hs|].
  unfold doctor_stats.
  rewrite (bind_return _ _ _ _ _ (find_run c_appointment _ st)).
  rewrite (bind_return _ _ _ _ _ (find_one_run c_doctorprofile _ st)).
  cbn [docs c_appointment c_doctorprofile].
  rewrite count_completed_filter, (count_completed_scheduled _ _ Hs).
  destruct (List.find _ (doctorprofile st)) as [p|] eqn:E; [|reflexivity].
  apply find_some in E as [Hin _].
  rewrite Forall_forall in Hr. rewrite (Hr p Hin). reflexivity.
Qed.

Lemma api_stats_are_always_zero_witness :
  let st := call (UpdatePayment "000000000000000000000002" "paid")
              (call (CreateAppointment "p1"
                       (mkAppointmentRequest "000000000000000000000000"
                          "2024-05-01T10:00" None None))
                 (call (Login (mkLoginRequest "ann@clinic.org" "doctor"))
                    empty_store)) in
  doctor_stats "000000000000000000000000" st
  = (Return (mkStatsResponse 0 0 0%float), st).
Proof.
  intros st.
  apply (api_stats_are_always_zero st "000000000000000000000000").
  repeat apply reachable_call. apply reachable_empty.
Defined.



(** ** More of the listings *)

(** A patient who has logged in is listed by [list_patients], with the
    email given at login. *)
Theorem patient_listed_after_login (st : Store) (email : string) :
  let st' := exec (login (mkLoginRequest email "patient")) st in
  exists listed u,
    eval list_patients st' = Return listed
    /\ In u listed
    /\ User.email (snd u) = email
    /\ User.role (snd u) = "patient".
Proof.
  intros st'. subst st'.
  set (req := mkLoginRequest email "patient").
  destruct (login_account_exists req st) as [d Hd].
  apply find_some in Hd as [Hin Hsame].
  unfold same_account in Hsame. apply andb_prop in Hsame as [He Hr].
  apply String.eqb_eq in He, Hr. simpl in He, Hr.
  eexists. exists (str_of_oid (_id d), fields d).
  split; [reflexivity|]. split; [|split; assumption].
  unfold stringified.
  apply (in_map (fun d => (str_of_oid (_id d), fields d))).
  apply filter_In. split; [exact Hin|].
  now apply String.eqb_eq.
Qed.

(** An appointment scheduled by the admin is "scheduled" with payment
    "pending" and without a payment method, and from then on it is the last
    entry of the patient's appointment list and of the appointments in the
    patient's history. *)
Theorem admin_appointment_is_listed (st : Store) (body : AdminScheduleRequest)
  (mine : list (string * Appointment.t))
  (appts : list (string * Appointment.t))
  (prescs : list (string * Prescription.t)) :
  eval (get_patient_appointments (sreq_patient_id body)) st = Return mine ->
  eval (patient_history (sreq_patient_id body)) st = Return (appts, prescs) ->
  let st' := exec (admin_create_appointment body) st in
  let new := (str_of_oid (next_oid st),
              Appointment.mk (sreq_patient_id body) (sreq_doctor_id body)
                (sreq_scheduled_at body) (sreq_reason body) "scheduled"
                None "pending") in
  eval (admin_create_appointment body) st = Return (fst new)
  /\ eval (get_patient_appointments (sreq_patient_id body)) st'
     = Return (mine ++ [new])%list
  /\ eval (patient_history (sreq_patient_id body)) st'
     = Return ((appts ++ [new])%list, prescs).
Proof.
  intros Hmine Hhist st' new. subst st' new.
  unfold eval, get_patient_appointments, patient_history, get_documents,
    find, bind, ret in *.
  cbn [fst snd] in *. inversion Hmine as [Hm]. inversion Hhist as [[Ha Hp]].
  split; [reflexivity|].
  cbn [exec admin_create_appointment create_document snd docs c_appointment
       c_prescription with_docs with_next_oid appointment prescription].
  rewrite !filter_app_last. cbn [fields Appointment.patient_id].
  rewrite !String.eqb_refl, !stringified_app. split; reflexivity.
Qed.

Lemma admin_appointment_is_listed_witness :
  let body := mkAdminScheduleRequest "p1" "d1" "2024-07-01T08:00" None in
  eval (get_patient_appointments "p1")
    (exec (admin_create_appointment body) empty_store)
  = Return [("000000000000000000000000",
             Appointment.mk "p1" "d1" "2024-07-01T08:00" None "scheduled"
               None "pending")].
Proof.
  intros body.
  exact (proj1 (proj2
           (admin_appointment_is_listed empty_store body [] [] []
              eq_refl eq_refl))).
Defined.

(** ** The identifier helper *)

(** [to_object_id] never lets an exception other than its own 400 out and
    never touches the store; and it accepts every identifier string the
    store hands out, giving back the identifier. *)
Theorem to_object_id_accepts_store_ids (st : Store) :
  (forall s,
      (status_of (eval (to_object_id s) st) = 200%Z
       \/ eval (to_object_id s) st = Raise (HTTPException 400 "Invalid id"))
      /\ exec (to_object_id s) st = st)
  /\ (forall o,
        (o < 16 ^ 24)%N ->
        to_object_id (str_of_oid o) st = (Return o, st)).
Proof.
  split.
  - intros s. unfold eval, exec, to_object_id.
    destruct (ObjectId s); cbn; auto.
  - intros o Ho. unfold to_object_id.
    now rewrite (ObjectId_str_of_oid o Ho).
Qed.

Lemma to_object_id_accepts_store_ids_witness :
  to_object_id "000000000000000000003039" empty_store
  = (Return 12345%N, empty_store).
Proof.
  exact (proj2 (to_object_id_accepts_store_ids empty_store) 12345%N eq_refl).
Defined.
